(** * agentic_ai: the planner / architect / coder pipeline

    A shallow embedding of [agent/promt.py] and [agent/graph.py].

    - A Python string is a [string]: the bytes of its text in UTF-8 (one
      byte per character for ASCII text); a [dict] is a
      [gmap string value].
    - The LLM client, the pydantic constructors and the file tools are the
      world the pipeline talks to. Each call of a node receives that world as
      an [Env]: what every external call answers, either a value or a raised
      exception.
    - A node is a computation in [Eff]: its outcome together with the list of
      external calls and console lines it made, in order. *)

From Stdlib Require Import Ascii String.
From stdpp Require Import base option list strings pretty gmap fin_maps.

Local Open Scope string_scope.
Local Open Scope list_scope.

(** * Python exceptions *)

(** The classes that occur. [KeyboardInterrupt] and [SystemExit] derive from
    [BaseException] only: a bare [except:] catches them, [except Exception]
    does not. *)
Inductive exn_class :=
  | KeyError
  | ValueError
  | TypeError
  | AttributeError
  | IndexError
  | ValidationError
  | FileNotFoundError
  | RuntimeError
  | KeyboardInterrupt
  | SystemExit.

Record exn := mk_exn { exn_cls : exn_class; exn_str : string }.

Definition is_Exception (e : exn) : bool :=
  match exn_cls e with
  | KeyboardInterrupt | SystemExit => false
  | _ => true
  end.

Inductive outcome (A : Type) :=
  | Returned (a : A)
  | Raised (e : exn).
Arguments Returned {A} a.
Arguments Raised {A} e.

(** * Data model (agent/states.py) *)

(** Modelled from the spec: [agent/states.py], which declares the pydantic
    records, is not among the sources; the fields are those of the data model
    (section 3 of the specification) and of the keyword arguments used in
    [graph.py]. *)
Record File := mk_File { path : string; purpose : string }.

(** Modelled from the spec: the pydantic record [Plan] of [agent/states.py]. *)
Record Plan := mk_Plan {
  name : string;
  description : string;
  techstack : string;
  features : list string;
  files : list File
}.

(** Modelled from the spec: the pydantic record [ImplementationTask] of
    [agent/states.py]. *)
Record ImplementationTask := mk_ImplementationTask {
  filepath : string;
  task_description : string
}.

(** Modelled from the spec: the pydantic record [TaskPlan] of
    [agent/states.py]; [plan] is the back-reference, absent until it is
    attached. *)
Record TaskPlan := mk_TaskPlan {
  implementation_steps : list ImplementationTask;
  plan : option Plan
}.

(** Modelled from the spec: the pydantic record [CoderState] of
    [agent/states.py]; [current_step_idx] is the zero-based cursor. *)
Record CoderState := mk_CoderState {
  task_plan : TaskPlan;
  current_step_idx : nat
}.

(** What a key of the run-time state can hold. *)
Inductive value :=
  | VNone
  | VStr (s : string)
  | VPlan (p : Plan)
  | VTaskPlan (t : TaskPlan)
  | VCoderState (c : CoderState).

(** Parsed JSON, as [SimpleJsonOutputParser] hands it over. *)
#[local] Unset Elimination Schemes.
Inductive json :=
  | JNull
  | JBool (b : bool)
  | JNumber (z : Z)
  | JString (s : string)
  | JArray (l : list json)
  | JObject (l : list (string * json)).
#[local] Set Elimination Schemes.

(** * Effects *)

Inductive event :=
  | EvStructured (schema : string) (prompt : string)
  | EvJsonChain (prompt : string)
  | EvReadFile (file : string)
  | EvReactAgent (system_content user_content : string)
  | EvPrint (line : string).

Definition Eff (A : Type) : Type := outcome A * list event.

Definition eff_ret {A} (a : A) : Eff A := (Returned a, []).

Definition eff_bind {A B} (f : A → Eff B) (m : Eff A) : Eff B :=
  match m with
  | (Returned a, t) => let '(r, t') := f a in (r, t ++ t')
  | (Raised e, t) => (Raised e, t)
  end.

#[global] Instance Eff_ret : MRet Eff := @eff_ret.
#[global] Instance Eff_bind : MBind Eff := @eff_bind.

Definition raise {A} (c : exn_class) (msg : string) : Eff A :=
  (Raised (mk_exn c msg), []).

(** An external call: the event, and what the world answers. *)
Definition call {A} (ev : event) (answer : outcome A) : Eff A := (answer, [ev]).

(** [print(line)]. *)
Definition print (line : string) : Eff unit := (Returned tt, [EvPrint line]).

(** [try: body  except: handler] *)
Definition try_except {A} (body : Eff A) (handler : exn → Eff A) : Eff A :=
  match body with
  | (Returned a, t) => (Returned a, t)
  | (Raised e, t) => let '(r, t') := handler e in (r, t ++ t')
  end.

(** [try: body  except Exception as e: handler] *)
Definition try_except_Exception {A} (body : Eff A) (handler : exn → Eff A) : Eff A :=
  match body with
  | (Returned a, t) => (Returned a, t)
  | (Raised e, t) =>
      if is_Exception e then let '(r, t') := handler e in (r, t ++ t')
      else (Raised e, t)
  end.

(** * agent/promt.py *)

Definition nl : string := String (ascii_of_nat 10) EmptyString.

(** The lines of a triple-quoted literal, joined by newlines. *)
Definition lines (ls : list string) : string := String.concat nl ls.

Definition planner_prompt (user_prompt : string) : string :=
  lines [
    "";
    "You are the PLANNER agent. Convert the user prompt into a COMPLETE engineering project plan.";
    "Your output should be a comprehensive plan that lists all files needed and their purposes.";
    "";
    "For web projects (HTML/CSS/JS), ALWAYS include:";
    "- index.html - The main HTML structure";
    "- styles.css - All CSS styling  ";
    "- script.js - All JavaScript functionality";
    "";
    "User request:";
    "" ]
  +:+ user_prompt +:+
  lines [
    "";
    "";
    "Create a detailed plan that lists EVERY file needed for this project with its purpose.";
    "    " ].

Definition architect_prompt (plan : string) : string :=
  lines [
    "";
    "You are the ARCHITECT agent. Given this project plan, break it down into explicit engineering tasks.";
    "";
    "CRITICAL RULES:";
    "- For EACH FILE in the plan, create ONE or MORE IMPLEMENTATION TASKS.";
    "- List files in dependency order (HTML first, then CSS, then JS).";
    "- In each task description, be VERY SPECIFIC:";
    "    * What goes in this file";
    "    * Key functions/classes/elements to implement";
    "    * Exactly what the code should do";
    "    * Integration with other files";
    "- Include concrete code requirements, not just descriptions.";
    "";
    "EXAMPLE STRUCTURE for Web App:";
    "1. Task: Create index.html with HTML structure";
    "2. Task: Create styles.css with all styling";
    "3. Task: Create script.js with all JavaScript logic";
    "";
    "Project Plan:";
    "" ]
  +:+ plan +:+
  lines [
    "";
    "";
    "Break this into CONCRETE implementation tasks. Be specific about file content and what each file must contain.";
    "    " ].

Definition coder_system_prompt (_ : unit) : string :=
  lines [
    "";
    "You are the CODER agent.";
    "You are implementing a specific engineering task.";
    "You have access to tools to read and write files.";
    "";
    "CRITICAL INSTRUCTIONS:";
    "- You MUST complete the task by writing/modifying files using the write_file tool";
    "- Review all existing files first to maintain compatibility";
    "- Implement the FULL COMPLETE file content";
    "- Do NOT write partial code or stubs - write complete, working code";
    "- When implementing a file, include all necessary parts (imports, functions, styling, HTML elements)";
    "- If a file doesn't exist yet, create it with complete content";
    "- Use write_file to save your complete implementation";
    "- Always finish by writing the file - do not just explain what to do";
    "";
    "For web projects:";
    "- HTML files should have complete structure with all elements and proper linking to CSS/JS";
    "- CSS files should have all styling rules";
    "- JS files should have all functions, event listeners, and complete logic";
    "";
    "Make sure code is production-ready and fully functional.";
    "    " ].

(** * agent/graph.py: the world of one node call *)

(** What the external calls of one node call answer.
    - [structured_Plan], [structured_TaskPlan]:
      [llm.with_structured_output(Schema).invoke(prompt_text)], which hands
      back an instance of the schema or [None];
    - [json_chain]: [(llm | SimpleJsonOutputParser()).invoke(prompt_text)];
    - [Plan_kwargs], [TaskPlan_kwargs]: the validating constructors [Plan]
      and [TaskPlan] applied to the keywords of [resp_dict];
    - [model_dump_json]: [plan.model_dump_json()];
    - [model_str]: [str(m)] of a pydantic model [m], as an f-string renders
      it;
    - [read_file_invoke]: [read_file.invoke({"path": p})];
    - [react_agent_invoke]: [react_agent.invoke] on a system and a user
      message; its result is not used by the caller. *)
Record Env := mk_Env {
  structured_Plan : string → outcome (option Plan);
  structured_TaskPlan : string → outcome (option TaskPlan);
  json_chain : string → outcome json;
  Plan_kwargs : json → outcome Plan;
  TaskPlan_kwargs : json → outcome TaskPlan;
  model_dump_json : Plan → string;
  model_str : value → string;
  read_file_invoke : string → outcome string;
  react_agent_invoke : string → string → outcome unit
}.

(** [state[key]]: [KeyError] when the key is absent. The text of a
    [KeyError] is the [repr] of the key: for the keys of this pipeline, plain
    words, the key between single quotes. *)
Definition getitem (state : gmap string value) (key : string) : Eff value :=
  match state !! key with
  | Some v => mret v
  | None => raise KeyError ("'" +:+ key +:+ "'")
  end.

(** What an f-string renders for a value: a string as it is, [None] by its
    name, a pydantic model by its [str]. No value is refused. *)
Definition format_value (env : Env) (v : value) : string :=
  match v with
  | VStr s => s
  | VNone => "None"
  | _ => model_str env v
  end.

(** The [plan] entry is read at the type the source annotates
    ([plan: Plan]). An entry that is no Plan is a raise in this model: a
    string or [None] has no [model_dump_json]; another pydantic model has
    one, and there the model stops where Python would go on with the
    ill-typed value (the pipeline produces no such state). *)
Definition as_Plan (v : value) : Eff Plan :=
  match v with
  | VPlan p => mret p
  | _ => raise AttributeError "model_dump_json"
  end.

(** [CoderState(task_plan=v, current_step_idx=0)]. *)
Definition new_CoderState (v : value) : Eff CoderState :=
  match v with
  | VTaskPlan t => mret (mk_CoderState t 0)
  | _ => raise ValidationError "task_plan"
  end.

(** [s == "DONE"] on whatever [.get("status")] gives. *)
Definition is_DONE (o : option value) : bool :=
  match o with
  | Some (VStr s) => String.eqb s "DONE"
  | _ => false
  end.

(** * planner_agent *)

Definition default_Plan : Plan :=
  mk_Plan
    "Scientific Calculator"
    "A colorful scientific calculator"
    "html,css,javascript"
    ["arithmetic"; "scientific functions"; "colorful UI"]
    [ mk_File "index.html" "Main HTML structure";
      mk_File "styles.css" "Styling and layout";
      mk_File "script.js" "Calculator logic" ].

Definition planner_agent (env : Env) (state : gmap string value)
  : Eff (gmap string value) :=
  user_prompt ← getitem state "user_prompt";
  let prompt_text :=
    planner_prompt (format_value env user_prompt) +:+ nl +:+ nl +:+
    "Respond with a valid JSON object with these keys: name, description, techstack, features (array), files (array of objects with path and purpose)" in
  resp ←
    try_except
      (call (EvStructured "Plan" prompt_text) (structured_Plan env prompt_text))
      (λ _,
        try_except_Exception
          (resp_dict ← call (EvJsonChain prompt_text) (json_chain env prompt_text);
           p ← (Plan_kwargs env resp_dict, []);
           mret (Some p))
          (λ e,
            _ ← print ("Planning error: " +:+ exn_str e);
            mret (Some default_Plan)));
  match resp with
  | None => raise ValueError "Planner did not return a valid response."
  | Some p => mret ({[ "plan" := VPlan p ]} : gmap string value)
  end.

(** * architect_agent *)

Definition default_TaskPlan : TaskPlan :=
  mk_TaskPlan
    [ mk_ImplementationTask "index.html"
        "Create the HTML structure for a scientific calculator with display and button grid";
      mk_ImplementationTask "styles.css"
        "Add gradient background, style the calculator layout, and create colorful buttons with hover effects";
      mk_ImplementationTask "script.js"
        "Implement calculator logic with arithmetic and scientific functions" ]
    None.

(** [resp.plan = plan] *)
Definition set_plan (resp : TaskPlan) (p : Plan) : TaskPlan :=
  mk_TaskPlan (implementation_steps resp) (Some p).

Definition architect_agent (env : Env) (state : gmap string value)
  : Eff (gmap string value) :=
  plan ← getitem state "plan" ≫= as_Plan;
  let prompt_text :=
    architect_prompt (model_dump_json env plan) +:+ nl +:+ nl +:+
    "Respond with a valid JSON object with key 'implementation_steps' containing an array of tasks with 'filepath' and 'task_description'" in
  resp ←
    try_except
      (call (EvStructured "TaskPlan" prompt_text) (structured_TaskPlan env prompt_text))
      (λ _,
        try_except_Exception
          (resp_dict ← call (EvJsonChain prompt_text) (json_chain env prompt_text);
           t ← (TaskPlan_kwargs env resp_dict, []);
           mret (Some t))
          (λ e,
            _ ← print ("Architecture error: " +:+ exn_str e);
            mret (Some default_TaskPlan)));
  match resp with
  | None => raise ValueError "Architect did not return a valid response."
  | Some t => mret ({[ "task_plan" := VTaskPlan (set_plan t plan) ]} : gmap string value)
  end.

(** * coder_agent *)

(** A byte that continues a character of several bytes (10xxxxxx). *)
Definition is_continuation (c : ascii) : bool :=
  match c with
  | Ascii _ _ _ _ _ _ b6 b7 => b7 && negb b6
  end.

(** [s[:n]]: the first [n] characters of the text, that is the bytes up to
    the first byte of character number [n + 1]. *)
Fixpoint take_chars (n : nat) (s : string) : string :=
  match s with
  | EmptyString => EmptyString
  | String c s' =>
      if is_continuation c then String c (take_chars n s')
      else match n with
           | 0 => EmptyString
           | S n' => String c (take_chars n' s')
           end
  end.

(** [len(s)]: the number of characters, one per byte that starts one. *)
Fixpoint char_count (s : string) : nat :=
  match s with
  | EmptyString => 0
  | String c s' => if is_continuation c then char_count s' else S (char_count s')
  end.

(** The per-task user message. *)
Definition coder_user_prompt (current_task : ImplementationTask)
    (existing_content : string) : string :=
  "Task: " +:+ task_description current_task +:+ nl +:+
  "File: " +:+ filepath current_task +:+ nl +:+
  "Existing content:" +:+ nl +:+ existing_content +:+ nl +:+
  "IMPORTANT: Use the write_file tool to save your implementation!".

(** [state.get("coder_state")], then the fresh cursor when it is [None]. *)
Definition get_coder_state (state : gmap string value) : Eff CoderState :=
  match state !! "coder_state" with
  | None | Some VNone => getitem state "task_plan" ≫= new_CoderState
  | Some (VCoderState c) => mret c
  | Some _ => raise AttributeError "task_plan"
  end.

Definition coder_agent (env : Env) (state : gmap string value)
  : Eff (gmap string value) :=
  coder_state ← get_coder_state state;
  let steps := implementation_steps (task_plan coder_state) in
  if decide (length steps ≤ current_step_idx coder_state)%nat then
    mret ({[ "coder_state" := VCoderState coder_state;
             "status" := VStr "DONE" ]} : gmap string value)
  else
    match steps !! current_step_idx coder_state with
    | None => raise IndexError "list index out of range"
    | Some current_task =>
        existing_content ←
          try_except
            (call (EvReadFile (filepath current_task))
                  (read_file_invoke env (filepath current_task)))
            (λ _, mret "");
        let system_prompt := coder_system_prompt () in
        let user_prompt := coder_user_prompt current_task existing_content in
        _ ←
          try_except_Exception
            (call (EvReactAgent system_prompt user_prompt)
                  (react_agent_invoke env system_prompt user_prompt))
            (λ e,
              print ("Coder agent step " +:+ pretty (current_step_idx coder_state)
                     +:+ ": " +:+ take_chars 200 (exn_str e)));
        mret ({[ "coder_state" :=
                   VCoderState (mk_CoderState (task_plan coder_state)
                                              (current_step_idx coder_state + 1)%nat) ]}
              : gmap string value)
    end.

(** * The graph *)

Inductive node := planner | architect | coder.

(** Where an edge leads: a node, or the framework's [END]. *)
Inductive target := Goto (n : node) | END.

(** [graph.add_node(name, fn)] *)
Definition node_fn (n : node) : Env → gmap string value → Eff (gmap string value) :=
  match n with
  | planner => planner_agent
  | architect => architect_agent
  | coder => coder_agent
  end.

(** [lambda s: "END" if s.get("status") == "DONE" else "coder"] *)
Definition coder_route (s : gmap string value) : string :=
  if is_DONE (s !! "status") then "END" else "coder".

(** [{"END": END, "coder": "coder"}] *)
Definition coder_path_map : gmap string target :=
  {[ "END" := END; "coder" := Goto coder ]}.

(** [add_edge] twice, then [add_conditional_edges] on the coder. *)
Definition next_target (n : node) (s : gmap string value) : option target :=
  match n with
  | planner => Some (Goto architect)
  | architect => Some (Goto coder)
  | coder => coder_path_map !! coder_route s
  end.

(** [graph.set_entry_point("planner")] *)
Definition entry_point : node := planner.

(** How the framework folds the mapping a node returns into the run-time
    state. [StateGraph(dict)] declares no keys, and the framework is not part
    of the repository: the state is either replaced by the returned mapping
    or updated key by key with it. The development covers both. *)
Inductive fold_mode := Replace | Update.

Definition apply_update (m : fold_mode) (s u : gmap string value)
  : gmap string value :=
  match m with
  | Replace => u
  | Update => u ∪ s
  end.

(** One executed node: the state it saw, what it gave back, its events and
    the edge taken after it. *)
Record step := mk_step {
  step_node : node;
  step_in : gmap string value;
  step_out : outcome (gmap string value);
  step_events : list event;
  step_goto : option target
}.

Inductive final :=
  | Finished (s : gmap string value)
  | Aborted (e : exn)
  | RecursionLimit (s : gmap string value).

(** The run from node [n]: at most [limit] nodes are executed
    ([recursion_limit]); [envs i] is the world of the [i]-th one. The
    framework looks at the ceiling before it notices that nothing is left to
    run: a run whose last allowed node takes the edge to the end is stopped
    at the recursion limit all the same, and a run finishes only with room
    left under the ceiling. *)
Fixpoint run_from (m : fold_mode) (envs : nat → Env) (limit i : nat)
    (n : node) (s : gmap string value) : list step * final :=
  match limit with
  | 0 => ([], RecursionLimit s)
  | S limit' =>
      let '(res, evs) := node_fn n (envs i) s in
      match res with
      | Raised e => ([mk_step n s res evs None], Aborted e)
      | Returned u =>
          let s' := apply_update m s u in
          match next_target n s' with
          | None =>
              ([mk_step n s res evs None],
               Aborted (mk_exn KeyError ("'" +:+ coder_route s' +:+ "'")))
          | Some END =>
              ([mk_step n s res evs (Some END)],
               match limit' with
               | 0 => RecursionLimit s'
               | S _ => Finished s'
               end)
          | Some (Goto n') =>
              let '(tr, fin) := run_from m envs limit' (S i) n' s' in
              (mk_step n s res evs (Some (Goto n')) :: tr, fin)
          end
      end
  end.

(** [agent.invoke(input, {"recursion_limit": limit})] *)
Definition invoke (m : fold_mode) (envs : nat → Env) (limit : nat)
    (input : gmap string value) : list step * final :=
  run_from m envs limit 0 entry_point input.

(** * Driving the coder by hand *)

(** The state handed to the next call when the [CoderState] a call gave back
    is fed in again. *)
Definition feed_back (state update : gmap string value) : gmap string value :=
  match update !! "coder_state" with
  | Some c => <[ "coder_state" := c ]> state
  | None => state
  end.

(** Calls of [coder_agent] from [state] on, the [i]-th one in the world
    [envs i], each fed with the [CoderState] of the one before, until one
    reports status DONE: the number of calls made, and the mapping of the
    last one. [fuel] bounds the calls. *)
Fixpoint coder_until_DONE (envs : nat → Env) (fuel i : nat)
    (state : gmap string value) : option (nat * gmap string value) :=
  match fuel with
  | 0 => None
  | S fuel' =>
      match (coder_agent (envs i) state).1 with
      | Raised _ => None
      | Returned u =>
          if is_DONE (u !! "status") then Some (S i, u)
          else coder_until_DONE envs fuel' (S i) (feed_back state u)
      end
  end.

(** * The file tools *)

Module tools.

(** Modelled from the spec: [agent/tools.py] is not among the sources. The
    operations follow section 4.1 of the specification: every path is
    resolved against the project root and normalized; [write_file] refuses
    with InvalidInput a resolved path outside the root, before it writes;
    [read_file] fails with NotFound when the file does not exist. A file
    system is a finite map from normalized absolute paths (lists of
    segments) to contents. *)
Inductive tool_error := NotFound | InvalidInput.

Inductive tool_result (A : Type) :=
  | Ok (a : A)
  | Err (e : tool_error).
Arguments Ok {A} a.
Arguments Err {A} e.

(** The segments of a path: the pieces between separators. *)
Fixpoint split_on (sep : ascii) (s : string) : list string :=
  match s with
  | EmptyString => [EmptyString]
  | String c s' =>
      if Ascii.eqb c sep then EmptyString :: split_on sep s'
      else match split_on sep s' with
           | seg :: rest => String c seg :: rest
           | [] => [String c EmptyString]
           end
  end.

Definition slash : ascii := ascii_of_nat 47.

Definition is_absolute (p : string) : bool :=
  match p with
  | String c _ => Ascii.eqb c slash
  | EmptyString => false
  end.

(** Normalization over a stack of the segments walked so far (innermost
    first): empty and [.] segments are dropped, [..] leaves the
    directory (and stays at the top of the file system). *)
Fixpoint normalize (stack : list string) (segs : list string) : list string :=
  match segs with
  | [] => rev stack
  | seg :: rest =>
      if String.eqb seg "" || String.eqb seg "." then normalize stack rest
      else if String.eqb seg ".." then normalize (tail stack) rest
      else normalize (seg :: stack) rest
  end.

(** A segment that names a file or a directory. *)
Definition plain_segment (seg : string) : Prop :=
  seg ≠ "" ∧ seg ≠ "." ∧ seg ≠ "..".

(** The path resolved against the root. *)
Definition resolve (root : list string) (p : string) : list string :=
  normalize (if is_absolute p then [] else rev root) (split_on slash p).

(** Containment: the root is a prefix of the resolved path. *)
Definition within (root q : list string) : bool :=
  bool_decide (root `prefix_of` q).

(** Modelled from the spec: [write_file] of the missing [agent/tools.py]. The
    path is resolved and checked for containment first; only a contained path
    is written (the whole content, over whatever was there). *)
Definition write_file (root : list string) (fs : gmap (list string) string)
    (p content : string)
  : tool_result (list string) * gmap (list string) string :=
  let q := resolve root p in
  if within root q then (Ok q, <[ q := content ]> fs)
  else (Err InvalidInput, fs).

(** Modelled from the spec: [read_file] of the missing [agent/tools.py]. The
    content at the resolved path, NotFound when there is no file. *)
Definition read_file (root : list string) (fs : gmap (list string) string)
    (p : string) : tool_result string :=
  match fs !! resolve root p with
  | Some content => Ok content
  | None => Err NotFound
  end.

(** A failed tool call, as the exception its caller sees. *)
Definition invoke_result {A} (r : tool_result A) : outcome A :=
  match r with
  | Ok a => Returned a
  | Err NotFound => Raised (mk_exn FileNotFoundError "NotFound")
  | Err InvalidInput => Raised (mk_exn ValueError "InvalidInput")
  end.

End tools.

(** * Concrete worlds and inputs used in the examples *)

Definition boom : exn := mk_exn RuntimeError "boom".

(** Every LLM call, validation and tool call raises. *)
Definition env_failing : Env :=
  mk_Env (λ _, Raised boom) (λ _, Raised boom) (λ _, Raised boom)
         (λ _, Raised boom) (λ _, Raised boom) (λ _, "{}") (λ _, "model")
         (λ _, Raised boom) (λ _ _, Raised boom).

(** The structured calls answer; the coder interaction returns. *)
Definition env_answering (p : Plan) (t : TaskPlan) : Env :=
  mk_Env (λ _, Returned (Some p)) (λ _, Returned (Some t)) (λ _, Returned JNull)
         (λ _, Returned p) (λ _, Returned t) (λ _, "{}") (λ _, "model")
         (λ _, Returned "old") (λ _ _, Returned ()).

(** The coder interaction is interrupted from the keyboard. *)
Definition env_interrupted : Env :=
  mk_Env (λ _, Raised boom) (λ _, Raised boom) (λ _, Raised boom)
         (λ _, Raised boom) (λ _, Raised boom) (λ _, "{}") (λ _, "model")
         (λ _, Raised boom) (λ _ _, Raised (mk_exn KeyboardInterrupt "")).

Definition one_task : TaskPlan :=
  mk_TaskPlan [mk_ImplementationTask "index.html" "Create the page"] None.

Definition example_root : list string := ["home"; "user"; "project"].

(** The coder interaction of this world raises nothing but instances of
    [Exception] (it may as well return). *)
Definition raises_only_Exception (env : Env) : Prop :=
  ∀ sys usr e, react_agent_invoke env sys usr = Raised e → is_Exception e = true.

(** The structured-output attempt on [Plan] fails. *)
Definition structured_Plan_fails (env : Env) : Prop :=
  ∀ prompt, ∃ e, structured_Plan env prompt = Raised e.

Definition structured_TaskPlan_fails (env : Env) : Prop :=
  ∀ prompt, ∃ e, structured_TaskPlan env prompt = Raised e.

(** The freeform attempt fails: the chain raises, or the constructor refuses
    what was parsed. *)
Definition json_Plan_fails (env : Env) : Prop :=
  ∀ prompt,
    (∃ e, json_chain env prompt = Raised e ∧ is_Exception e = true) ∨
    (∃ d e, json_chain env prompt = Returned d ∧
            Plan_kwargs env d = Raised e ∧ is_Exception e = true).

Definition json_TaskPlan_fails (env : Env) : Prop :=
  ∀ prompt,
    (∃ e, json_chain env prompt = Raised e ∧ is_Exception e = true) ∨
    (∃ d e, json_chain env prompt = Returned d ∧
            TaskPlan_kwargs env d = Raised e ∧ is_Exception e = true).

(** The cursor carried by a returned mapping. *)
Definition cursor_of (u : gmap string value) : option nat :=
  match u !! "coder_state" with
  | Some (VCoderState c) => Some (current_step_idx c)
  | _ => None
  end.

(** The world whose [read_file] tool is the one of the tool layer, over the
    file system [fs] under [root]; everything else as in [env]. *)
Definition with_read_file (root : list string) (fs : gmap (list string) string)
    (env : Env) : Env :=
  mk_Env (structured_Plan env) (structured_TaskPlan env) (json_chain env)
         (Plan_kwargs env) (TaskPlan_kwargs env) (model_dump_json env)
         (model_str env)
         (λ p, tools.invoke_result (tools.read_file root fs p))
         (react_agent_invoke env).

(** The order of the nodes along a run. *)
Definition expected_node (j : nat) : node :=
  match j with
  | 0 => planner
  | 1 => architect
  | _ => coder
  end.

(** What is known of the [j]-th executed step [st] of a run [(tr, fin)] under
    the ceiling [limit], whose first node ran in the world [envs i]: the step
    is the call of its node on its input state; a raise ends the run;
    otherwise the edge taken is the one the graph gives for the folded state,
    and the run ends (finished with room left under the ceiling, stopped at
    the recursion limit without), goes on with the node the edge leads to, or
    stops at the recursion limit. *)
Definition step_facts (m : fold_mode) (envs : nat → Env) (limit i : nat)
    (tr : list step) (fin : final) (j : nat) (st : step) : Prop :=
  (step_out st, step_events st) = node_fn (step_node st) (envs (i + j)%nat) (step_in st) ∧
  match step_out st with
  | Raised e => step_goto st = None ∧ tr !! S j = None ∧ fin = Aborted e
  | Returned u =>
      let s' := apply_update m (step_in st) u in
      step_goto st = next_target (step_node st) s' ∧
      match next_target (step_node st) s' with
      | Some END =>
          tr !! S j = None ∧
          fin = if decide (S j < limit)%nat then Finished s' else RecursionLimit s'
      | Some (Goto n') =>
          (∀ st', tr !! S j = Some st' → step_node st' = n' ∧ step_in st' = s') ∧
          (tr !! S j = None → fin = RecursionLimit s')
      | None => tr !! S j = None
      end
  end.

(** The keys a node writes. *)
Definition designated_keys (n : node) : gset string :=
  match n with
  | planner => {[ "plan" ]}
  | architect => {[ "task_plan" ]}
  | coder => {[ "coder_state"; "status" ]}
  end.

Definition example_input : gmap string value :=
  {[ "user_prompt" := VStr "Build a weather app" ]}.

(** [needle] occurs verbatim in [hay]. *)
Definition is_substring (needle hay : string) : Prop :=
  ∃ pre post, hay = pre +:+ needle +:+ post.

(** The mapping of a call that processed a task, and of a terminal call;
    the existing content the coder works with. *)
Definition advanced (cs : CoderState) : gmap string value :=
  {[ "coder_state" :=
       VCoderState (mk_CoderState (task_plan cs) (current_step_idx cs + 1)%nat) ]}.

Definition reported_DONE (cs : CoderState) : gmap string value :=
  {[ "coder_state" := VCoderState cs; "status" := VStr "DONE" ]}.

Definition existing_content_for (env : Env) (task : ImplementationTask) : string :=
  match read_file_invoke env (filepath task) with
  | Returned c => c
  | Raised _ => ""
  end.

(** * Further definitions *)

(** The text [planner_agent] sends to the LLM, in both attempts: the prompt
    and the appended instruction. *)
Definition planner_prompt_text (user_prompt : string) : string :=
  planner_prompt user_prompt +:+ nl +:+ nl +:+
  "Respond with a valid JSON object with these keys: name, description, techstack, features (array), files (array of objects with path and purpose)".

(** The text [architect_agent] sends, on the dump of the plan. *)
Definition architect_prompt_text (dump : string) : string :=
  architect_prompt dump +:+ nl +:+ nl +:+
  "Respond with a valid JSON object with key 'implementation_steps' containing an array of tasks with 'filepath' and 'task_description'".

(** The LLM calls among the events of a planning stage, and the console
    lines. *)
Definition is_LLM_call (ev : event) : bool :=
  match ev with
  | EvStructured _ _ | EvJsonChain _ | EvReactAgent _ _ => true
  | _ => false
  end.

Definition is_console (ev : event) : bool :=
  match ev with
  | EvPrint _ => true
  | _ => false
  end.

(** What the freeform attempt gives: the chain, then the constructor. *)
Definition json_Plan (env : Env) (prompt : string) : outcome Plan :=
  match json_chain env prompt with
  | Returned d => Plan_kwargs env d
  | Raised e => Raised e
  end.

Definition json_TaskPlan (env : Env) (prompt : string) : outcome TaskPlan :=
  match json_chain env prompt with
  | Returned d => TaskPlan_kwargs env d
  | Raised e => Raised e
  end.

(** The calls of [coder_agent] driven by hand, each fed with the
    [CoderState] of the one before: what each of at most [n] calls gave
    (outcome and events), up to the first one that raises. *)
Fixpoint coder_calls (envs : nat → Env) (n i : nat) (state : gmap string value)
  : list (Eff (gmap string value)) :=
  match n with
  | 0 => []
  | S n' =>
      let r := coder_agent (envs i) state in
      r :: match r.1 with
           | Returned u => coder_calls envs n' (S i) (feed_back state u)
           | Raised _ => []
           end
  end.

(** The [CoderState] of a returned mapping. *)
Definition coder_state_of (u : gmap string value) : option CoderState :=
  match u !! "coder_state" with
  | Some (VCoderState c) => Some c
  | _ => None
  end.

(** The structured calls raise; the chain and the constructors answer. *)
Definition env_json (p : Plan) (t : TaskPlan) : Env :=
  mk_Env (λ _, Raised boom) (λ _, Raised boom) (λ _, Returned JNull)
         (λ _, Returned p) (λ _, Returned t) (λ _, "{}") (λ _, "model")
         (λ _, Returned "old") (λ _ _, Returned ()).

(** The structured calls hand back [None]. *)
Definition env_none : Env :=
  mk_Env (λ _, Returned None) (λ _, Returned None) (λ _, Returned JNull)
         (λ _, Raised boom) (λ _, Raised boom) (λ _, "{}") (λ _, "model")
         (λ _, Returned "old") (λ _ _, Returned ()).

(** A plan of two tasks, with a back-reference set by whoever built it. *)
Definition two_tasks : TaskPlan :=
  mk_TaskPlan [ mk_ImplementationTask "index.html" "Create the page";
                mk_ImplementationTask "app.js" "Wire the button" ]
              (Some default_Plan).

Definition other_Plan : Plan :=
  mk_Plan "Weather" "A weather page" "html" ["search"] [mk_File "index.html" "Page"].

(** A step without the state it saw: its node, what the node gave back,
    its events and the edge taken. *)
Definition step_view (st : step)
  : node * outcome (gmap string value) * list event * option target :=
  (step_node st, step_out st, step_events st, step_goto st).

(** Two runs end alike: both finished, on states with the same CoderState
    and the same answer to the DONE test; or both aborted on the same
    exception; or both stopped at the recursion limit. *)
Definition same_end (a b : final) : Prop :=
  match a, b with
  | Finished s, Finished s' =>
      coder_state_of s = coder_state_of s' ∧
      is_DONE (s !! "status") = is_DONE (s' !! "status")
  | Aborted e, Aborted e' => e = e'
  | RecursionLimit _, RecursionLimit _ => True
  | _, _ => False
  end.

(** The state [s] of a run that replaces and the state [s'] of a run that
    updates by key agree on what the node [n] is about to read, and [s']
    holds nothing yet of what the coder will write. *)
Definition reads_agree (n : node) (s s' : gmap string value) : Prop :=
  match n with
  | planner => s !! "user_prompt" = s' !! "user_prompt" ∧ s' !! "coder_state" = None
  | architect => s !! "plan" = s' !! "plan" ∧ s' !! "coder_state" = None
  | coder => get_coder_state s = get_coder_state s'
  end ∧ s' !! "status" = None.

(** * Proofs *)

Ltac eff_unfold :=
  unfold mbind, mret, Eff_bind, Eff_ret, eff_bind, eff_ret, raise, call, print,
    try_except, try_except_Exception in *.

(** Case analysis on every outcome a hypothesis still matches on. *)
Ltac eff_cases :=
  repeat (simpl in *;
          match goal with
          | H : (_, _) = (_, _) |- _ => injection H as ? ?; subst
          | H : Returned _ = Returned _ |- _ => injection H as ?; subst
          | H : Raised _ = Returned _ |- _ => discriminate H
          | H : Returned _ = Raised _ |- _ => discriminate H
          | H : context [match ?x with _ => _ end] |- _ =>
              is_var x; destruct x
          | H : context [match ?x with _ => _ end] |- _ =>
              let E := fresh "E" in destruct x eqn:E
          end).

(** ** coder_agent, case by case *)

Lemma coder_agent_terminal env state cs :
  get_coder_state state = mret cs →
  (length (implementation_steps (task_plan cs)) ≤ current_step_idx cs)%nat →
  coder_agent env state = (Returned (reported_DONE cs), []).
Proof.
  intros Hget Hle. unfold coder_agent. rewrite Hget. eff_unfold. simpl.
  destruct (decide _) as [_|Hn]; [reflexivity | contradiction].
Qed.

Lemma coder_agent_working env state cs task :
  get_coder_state state = mret cs →
  implementation_steps (task_plan cs) !! current_step_idx cs = Some task →
  coder_agent env state =
    let sys := coder_system_prompt () in
    let usr := coder_user_prompt task (existing_content_for env task) in
    let evs := [EvReadFile (filepath task); EvReactAgent sys usr] in
    match react_agent_invoke env sys usr with
    | Returned _ => (Returned (advanced cs), evs)
    | Raised e =>
        if is_Exception e then
          (Returned (advanced cs),
           evs ++ [EvPrint ("Coder agent step " +:+ pretty (current_step_idx cs)
                            +:+ ": " +:+ take_chars 200 (exn_str e))])
        else (Raised e, evs)
    end.
Proof.
  intros Hget Htask. unfold coder_agent. rewrite Hget. eff_unfold. cbn beta iota zeta.
  pose proof (lookup_lt_Some _ _ _ Htask) as Hlt.
  destruct (decide _) as [Hle|_]; [lia|].
  rewrite Htask. unfold existing_content_for.
  destruct (read_file_invoke env (filepath task)) as [c|e0]; cbn beta iota zeta;
    (destruct (react_agent_invoke env _ _) as [[]|e]; cbn beta iota zeta;
     [reflexivity | destruct (is_Exception e); reflexivity]).
Qed.

Lemma reported_DONE_status cs : is_DONE (reported_DONE cs !! "status") = true.
Proof. reflexivity. Qed.

Lemma reported_DONE_cursor cs : cursor_of (reported_DONE cs) = Some (current_step_idx cs).
Proof. reflexivity. Qed.

Lemma advanced_status cs : advanced cs !! "status" = None.
Proof. reflexivity. Qed.

Lemma advanced_cursor cs : cursor_of (advanced cs) = Some (current_step_idx cs + 1)%nat.
Proof. reflexivity. Qed.

Lemma get_coder_state_present state cs :
  state !! "coder_state" = Some (VCoderState cs) → get_coder_state state = mret cs.
Proof. intros H. unfold get_coder_state. by rewrite H. Qed.

Lemma get_coder_state_fresh state tp :
  state !! "coder_state" = None →
  state !! "task_plan" = Some (VTaskPlan tp) →
  get_coder_state state = mret (mk_CoderState tp 0).
Proof.
  intros Hc Ht. unfold get_coder_state, getitem. rewrite Hc, Ht. reflexivity.
Qed.

Lemma get_coder_state_feed_back state u cs :
  u !! "coder_state" = Some (VCoderState cs) →
  get_coder_state (feed_back state u) = mret cs.
Proof.
  intros H. apply get_coder_state_present. unfold feed_back. rewrite H.
  apply lookup_insert_eq.
Qed.

Lemma get_coder_state_apply_update m state u cs :
  u !! "coder_state" = Some (VCoderState cs) →
  get_coder_state (apply_update m state u) = mret cs.
Proof.
  intros H. apply get_coder_state_present. destruct m; simpl; [done|].
  by apply lookup_union_Some_l.
Qed.

(** ** The coder loop *)

Lemma coder_agent_returns_advanced env state cs :
  get_coder_state state = mret cs →
  (current_step_idx cs < length (implementation_steps (task_plan cs)))%nat →
  raises_only_Exception env →
  (coder_agent env state).1 = Returned (advanced cs).
Proof.
  intros Hget Hlt Hexc.
  destruct (lookup_lt_is_Some_2 _ _ Hlt) as [task Htask].
  rewrite (coder_agent_working env state cs task Hget Htask). cbn zeta.
  destruct (react_agent_invoke env _ _) as [r|e] eqn:Hreact; [reflexivity|].
  rewrite (Hexc _ _ _ Hreact). reflexivity.
Qed.

Lemma coder_until_DONE_from envs tp :
  (∀ i, raises_only_Exception (envs i)) →
  ∀ fuel i state k,
    get_coder_state state = mret (mk_CoderState tp k) →
    (k ≤ length (implementation_steps tp))%nat →
    coder_until_DONE envs fuel i state =
      if decide (length (implementation_steps tp) - k < fuel)%nat
      then Some (S (i + (length (implementation_steps tp) - k)),
                 reported_DONE (mk_CoderState tp (length (implementation_steps tp))))
      else None.
Proof.
  intros Hexc. set (N := length (implementation_steps tp)).
  induction fuel as [|fuel IH]; intros i state k Hget Hk.
  - cbn [coder_until_DONE]. case_decide; [lia | reflexivity].
  - cbn [coder_until_DONE]. destruct (decide (k = N)) as [->|Hne].
    + rewrite (coder_agent_terminal (envs i) state _ Hget) by (simpl; fold N; lia).
      cbn [fst]. rewrite reported_DONE_status.
      case_decide; [|lia]. do 2 f_equal. lia.
    + rewrite (coder_agent_returns_advanced (envs i) state _ Hget)
        by (simpl; fold N; auto with lia).
      rewrite advanced_status. cbn [is_DONE].
      rewrite (IH (S i) _ (k + 1)%nat); [| | lia].
      * repeat case_decide; try lia; try reflexivity.
        do 2 f_equal. lia.
      * apply get_coder_state_feed_back. reflexivity.
Qed.

(** C1 (as amended): a TaskPlan of N implementation steps is driven to status
    DONE by exactly N + 1 calls of [coder_agent], each fed with the
    CoderState of the call before: N calls are not enough, the call after
    them reports DONE, and the cursor it reports equals N; this holds
    whether the interactions return or raise an Exception. *)
Theorem coder_until_DONE_calls envs state tp :
  state !! "coder_state" = None →
  state !! "task_plan" = Some (VTaskPlan tp) →
  (∀ i, raises_only_Exception (envs i)) →
  coder_until_DONE envs (length (implementation_steps tp)) 0 state = None ∧
  ∀ fuel, (length (implementation_steps tp) < fuel)%nat →
    ∃ u, coder_until_DONE envs fuel 0 state
           = Some (S (length (implementation_steps tp)), u) ∧
         is_DONE (u !! "status") = true ∧
         cursor_of u = Some (length (implementation_steps tp)).
Proof.
  intros Hc Ht Hexc.
  pose proof (get_coder_state_fresh state tp Hc Ht) as Hget.
  split.
  - rewrite (coder_until_DONE_from envs tp Hexc _ 0 state 0 Hget) by lia.
    destruct (decide _); [lia | reflexivity].
  - intros fuel Hfuel.
    rewrite (coder_until_DONE_from envs tp Hexc _ 0 state 0 Hget) by lia.
    case_decide; [|lia].
    eexists. split; [do 2 f_equal; lia|]. split; reflexivity.
Qed.

Lemma coder_until_DONE_calls_witness :
  coder_until_DONE (λ _, env_failing) 1 0 {[ "task_plan" := VTaskPlan one_task ]} = None ∧
  ∃ u, coder_until_DONE (λ _, env_failing) 2 0 {[ "task_plan" := VTaskPlan one_task ]}
         = Some (2, u) ∧
       is_DONE (u !! "status") = true ∧ cursor_of u = Some 1.
Proof.
  assert (H : ∀ i : nat, raises_only_Exception ((λ _, env_failing) i)).
  { intros _ sys usr e [= <-]. reflexivity. }
  destruct (coder_until_DONE_calls (λ _, env_failing)
              {[ "task_plan" := VTaskPlan one_task ]} one_task) as [H1 H2];
    [vm_compute; reflexivity | vm_compute; reflexivity | exact H |].
  split; [exact H1 | exact (H2 2 (le_n 2))].
Defined.

(** C1 (as stated) fails: with one implementation step, the first call
    processes the task and reports no status; DONE comes with the second
    call, whether the interaction returned or raised. *)
Lemma coder_DONE_not_in_N_calls :
  length (implementation_steps one_task) = 1 ∧
  (coder_agent env_failing {[ "task_plan" := VTaskPlan one_task ]}).1
    = Returned {[ "coder_state" := VCoderState (mk_CoderState one_task 1) ]} ∧
  (coder_agent (env_answering default_Plan one_task)
     {[ "task_plan" := VTaskPlan one_task ]}).1
    = Returned {[ "coder_state" := VCoderState (mk_CoderState one_task 1) ]} ∧
  (∀ fuel u, coder_until_DONE (λ _, env_failing) fuel 0
               {[ "task_plan" := VTaskPlan one_task ]} ≠ Some (1, u)) ∧
  (∀ fuel u, coder_until_DONE (λ _, env_answering default_Plan one_task) fuel 0
               {[ "task_plan" := VTaskPlan one_task ]} ≠ Some (1, u)).
Proof.
  split; [reflexivity|]. split; [vm_compute; reflexivity|].
  split; [vm_compute; reflexivity|].
  split; intros [|[|fuel]] u; vm_compute; congruence.
Qed.

(** ** planner_agent and architect_agent *)

Lemma planner_agent_returns env state u :
  (planner_agent env state).1 = Returned u → ∃ p, u = {[ "plan" := VPlan p ]}.
Proof.
  unfold planner_agent, getitem. eff_unfold. intros H.
  eff_cases; eauto.
Qed.

Lemma architect_agent_returns env state u :
  (architect_agent env state).1 = Returned u →
  ∃ p t, state !! "plan" = Some (VPlan p) ∧
         u = {[ "task_plan" := VTaskPlan (set_plan t p) ]}.
Proof.
  unfold architect_agent, getitem, as_Plan. eff_unfold. intros H.
  eff_cases; eauto.
Qed.

(** C4: when the structured-output attempt fails and the freeform JSON
    attempt fails too, [planner_agent] returns the fixed default Plan, named
    Scientific Calculator, with techstack html,css,javascript, three features
    and the files index.html, styles.css, script.js in that order, whatever
    the user prompt is. *)
Theorem planner_agent_fallback env state user_prompt :
  state !! "user_prompt" = Some (VStr user_prompt) →
  structured_Plan_fails env →
  json_Plan_fails env →
  (planner_agent env state).1 = Returned {[ "plan" := VPlan default_Plan ]} ∧
  name default_Plan = "Scientific Calculator" ∧
  techstack default_Plan = "html,css,javascript" ∧
  length (features default_Plan) = 3 ∧
  path <$> files default_Plan = ["index.html"; "styles.css"; "script.js"].
Proof.
  intros Hprompt Hstruct Hjson. split; [|by repeat split].
  unfold planner_agent, getitem. rewrite Hprompt. eff_unfold.
  cbn beta iota zeta.
  match goal with
  | |- context [structured_Plan env ?t] =>
      destruct (Hstruct t) as [e1 ->];
      destruct (Hjson t) as [(e2 & -> & He2) | (d & e2 & -> & Hd & He2)]
  end; cbn beta iota zeta; rewrite ?Hd; cbn beta iota zeta; rewrite He2; reflexivity.
Qed.

Lemma planner_agent_fallback_witness :
  (planner_agent env_failing {[ "user_prompt" := VStr "Build a weather app" ]}).1
    = Returned {[ "plan" := VPlan default_Plan ]} ∧
  name default_Plan = "Scientific Calculator" ∧
  techstack default_Plan = "html,css,javascript" ∧
  length (features default_Plan) = 3 ∧
  path <$> files default_Plan = ["index.html"; "styles.css"; "script.js"].
Proof.
  apply (planner_agent_fallback env_failing _ "Build a weather app").
  - vm_compute; reflexivity.
  - intros prompt. exists boom. reflexivity.
  - intros prompt. left. exists boom. split; reflexivity.
Defined.

(** The guard after the fallback tiers: a structured call that hands back
    [None] without raising reaches no fallback, and the planner raises. *)
Lemma planner_agent_None env state user_prompt :
  state !! "user_prompt" = Some (VStr user_prompt) →
  (∀ prompt, structured_Plan env prompt = Returned None) →
  (planner_agent env state).1
    = Raised (mk_exn ValueError "Planner did not return a valid response.").
Proof.
  intros Hprompt Hnone. unfold planner_agent, getitem.
  rewrite Hprompt. eff_unfold. cbn beta iota zeta. rewrite Hnone. reflexivity.
Qed.

(** C5: when both attempts fail, [architect_agent] returns a TaskPlan of
    three implementation steps, for index.html, styles.css and script.js in
    that order, each with a non-empty task_description; and whenever
    [architect_agent] returns, by the fallback or not, the plan field of the
    TaskPlan it returns is the Plan found in the state. *)
Theorem architect_agent_fallback env state p :
  state !! "plan" = Some (VPlan p) →
  (structured_TaskPlan_fails env → json_TaskPlan_fails env →
   ∃ t, (architect_agent env state).1 = Returned {[ "task_plan" := VTaskPlan t ]} ∧
        filepath <$> implementation_steps t = ["index.html"; "styles.css"; "script.js"] ∧
        Forall (λ task, task_description task ≠ "") (implementation_steps t) ∧
        plan t = Some p) ∧
  (∀ u, (architect_agent env state).1 = Returned u →
        ∃ t, u = {[ "task_plan" := VTaskPlan t ]} ∧ plan t = Some p).
Proof.
  intros Hplan. split.
  - intros Hstruct Hjson. exists (set_plan default_TaskPlan p).
    split; [|split; [reflexivity | split; [|reflexivity]]].
    + unfold architect_agent, getitem, as_Plan. rewrite Hplan. eff_unfold.
      cbn beta iota zeta.
      match goal with
      | |- context [structured_TaskPlan env ?t] =>
          destruct (Hstruct t) as [e1 ->];
          destruct (Hjson t) as [(e2 & -> & He2) | (d & e2 & -> & Hd & He2)]
      end; cbn beta iota zeta; rewrite ?Hd; cbn beta iota zeta; rewrite He2;
        reflexivity.
    + repeat constructor; discriminate.
  - intros u Hu. destruct (architect_agent_returns env state u Hu) as (p' & t & Hp' & ->).
    rewrite Hplan in Hp'. injection Hp' as <-. eauto.
Qed.

Lemma architect_agent_fallback_witness :
  ∃ t, (architect_agent env_failing {[ "plan" := VPlan default_Plan ]}).1
         = Returned {[ "task_plan" := VTaskPlan t ]} ∧
       filepath <$> implementation_steps t = ["index.html"; "styles.css"; "script.js"] ∧
       Forall (λ task, task_description task ≠ "") (implementation_steps t) ∧
       plan t = Some default_Plan.
Proof.
  apply (architect_agent_fallback env_failing {[ "plan" := VPlan default_Plan ]} default_Plan).
  - vm_compute; reflexivity.
  - intros prompt. exists boom. reflexivity.
  - intros prompt. left. exists boom. split; reflexivity.
Defined.

(** ** The claims on coder_agent *)

(** C2: with the cursor at or past the end of the implementation steps,
    [coder_agent] returns status DONE with the cursor where it was, makes no
    LLM or tool call (no event at all) and raises nothing; called again on
    the state that carries what it returned, it does the same. *)
Theorem coder_agent_DONE_idempotent env env' m state cs :
  get_coder_state state = mret cs →
  (length (implementation_steps (task_plan cs)) ≤ current_step_idx cs)%nat →
  coder_agent env state = (Returned (reported_DONE cs), []) ∧
  is_DONE (reported_DONE cs !! "status") = true ∧
  cursor_of (reported_DONE cs) = Some (current_step_idx cs) ∧
  coder_agent env' (feed_back state (reported_DONE cs))
    = (Returned (reported_DONE cs), []) ∧
  coder_agent env' (apply_update m state (reported_DONE cs))
    = (Returned (reported_DONE cs), []).
Proof.
  intros Hget Hle. split; [by apply coder_agent_terminal|].
  split; [reflexivity|]. split; [reflexivity|]. split.
  - apply coder_agent_terminal; [|exact Hle].
    by apply get_coder_state_feed_back.
  - apply coder_agent_terminal; [|exact Hle].
    by apply get_coder_state_apply_update.
Qed.

Lemma coder_agent_DONE_idempotent_witness :
  coder_agent env_failing {[ "coder_state" := VCoderState (mk_CoderState one_task 1) ]}
    = (Returned (reported_DONE (mk_CoderState one_task 1)), []) ∧
  coder_agent env_failing (reported_DONE (mk_CoderState one_task 1))
    = (Returned (reported_DONE (mk_CoderState one_task 1)), []).
Proof.
  destruct (coder_agent_DONE_idempotent env_failing env_failing Replace
              {[ "coder_state" := VCoderState (mk_CoderState one_task 1) ]}
              (mk_CoderState one_task 1))
    as (H1 & _ & _ & _ & H2); [vm_compute; reflexivity | simpl; lia |].
  split; [exact H1 | exact H2].
Defined.

(** C3: a call with the cursor below the number of implementation steps
    returns with the cursor advanced by exactly one, also when the
    interaction raises an exception: the exception is not propagated (the
    call returns), and the task is not retried (one interaction in the call,
    then at most the console line). *)
Theorem coder_agent_advances env state cs :
  get_coder_state state = mret cs →
  (current_step_idx cs < length (implementation_steps (task_plan cs)))%nat →
  raises_only_Exception env →
  ∃ task tail,
    implementation_steps (task_plan cs) !! current_step_idx cs = Some task ∧
    coder_agent env state =
      (Returned (advanced cs),
       [EvReadFile (filepath task);
        EvReactAgent (coder_system_prompt ())
          (coder_user_prompt task (existing_content_for env task))] ++ tail) ∧
    cursor_of (advanced cs) = Some (current_step_idx cs + 1)%nat ∧
    advanced cs !! "status" = None ∧
    Forall (λ ev, ∃ line, ev = EvPrint line) tail.
Proof.
  intros Hget Hlt Hexc.
  destruct (lookup_lt_is_Some_2 _ _ Hlt) as [task Htask].
  rewrite (coder_agent_working env state cs task Hget Htask). cbn zeta.
  destruct (react_agent_invoke env _ _) as [r|e] eqn:Hreact.
  - exists task, []. rewrite app_nil_r. repeat split; auto.
  - rewrite (Hexc _ _ _ Hreact). eexists task, [_].
    repeat split; auto. repeat constructor. eauto.
Qed.

Lemma coder_agent_advances_witness :
  ∃ task tail,
    implementation_steps one_task !! 0%nat = Some task ∧
    coder_agent env_failing {[ "task_plan" := VTaskPlan one_task ]} =
      (Returned (advanced (mk_CoderState one_task 0)),
       [EvReadFile (filepath task);
        EvReactAgent (coder_system_prompt ())
          (coder_user_prompt task (existing_content_for env_failing task))] ++ tail) ∧
    cursor_of (advanced (mk_CoderState one_task 0)) = Some 1 ∧
    advanced (mk_CoderState one_task 0) !! "status" = None ∧
    Forall (λ ev, ∃ line, ev = EvPrint line) tail.
Proof.
  apply (coder_agent_advances env_failing {[ "task_plan" := VTaskPlan one_task ]}
           (mk_CoderState one_task 0)).
  - vm_compute; reflexivity.
  - simpl; lia.
  - intros sys usr e [= <-]. reflexivity.
Defined.

(** Outside C3: [except Exception] lets an interrupt through. *)
Lemma coder_agent_interrupted :
  (coder_agent env_interrupted {[ "task_plan" := VTaskPlan one_task ]}).1
    = Raised (mk_exn KeyboardInterrupt "").
Proof. vm_compute; reflexivity. Qed.

(** C8: [read_file] on a path with no file fails with NotFound; and when the
    read of the coder stage raises, the stage goes on to the interaction with
    the empty string as the existing content, and the failure of the read is
    not what the call gives back. *)
Theorem read_miss_tolerated :
  (∀ root fs p,
     fs !! tools.resolve root p = None →
     tools.read_file root fs p = tools.Err tools.NotFound ∧
     ∃ e, tools.invoke_result (tools.read_file root fs p) = Raised e) ∧
  (∀ env state cs task e,
     get_coder_state state = mret cs →
     implementation_steps (task_plan cs) !! current_step_idx cs = Some task →
     read_file_invoke env (filepath task) = Raised e →
     (∃ tail, (coder_agent env state).2 =
                [EvReadFile (filepath task);
                 EvReactAgent (coder_system_prompt ()) (coder_user_prompt task "")]
                ++ tail) ∧
     (raises_only_Exception env →
      (coder_agent env state).1 = Returned (advanced cs))).
Proof.
  split.
  - intros root fs p Hnone. unfold tools.read_file. rewrite Hnone. eauto.
  - intros env state cs task e Hget Htask Hread.
    rewrite (coder_agent_working env state cs task Hget Htask). cbn zeta.
    unfold existing_content_for. rewrite Hread. split.
    + destruct (react_agent_invoke env _ _) as [r|e']; [by exists []|].
      destruct (is_Exception e'); [by eexists [_] | by exists []].
    + intros Hexc.
      destruct (react_agent_invoke env _ _) as [r|e'] eqn:Hreact; [reflexivity|].
      by rewrite (Hexc _ _ _ Hreact).
Qed.

Lemma read_miss_tolerated_witness :
  tools.read_file example_root ∅ "index.html" = tools.Err tools.NotFound ∧
  (∃ tail,
     (coder_agent (with_read_file example_root ∅ (env_answering default_Plan one_task))
        {[ "task_plan" := VTaskPlan one_task ]}).2 =
       [EvReadFile "index.html";
        EvReactAgent (coder_system_prompt ())
          (coder_user_prompt (mk_ImplementationTask "index.html" "Create the page") "")]
       ++ tail) ∧
  (coder_agent (with_read_file example_root ∅ (env_answering default_Plan one_task))
     {[ "task_plan" := VTaskPlan one_task ]}).1
    = Returned (advanced (mk_CoderState one_task 0)).
Proof.
  destruct read_miss_tolerated as [Hread Hcoder].
  destruct (Hread example_root ∅ "index.html") as [Hnf _]; [vm_compute; reflexivity|].
  destruct (Hcoder (with_read_file example_root ∅ (env_answering default_Plan one_task))
              {[ "task_plan" := VTaskPlan one_task ]}
              (mk_CoderState one_task 0)
              (mk_ImplementationTask "index.html" "Create the page")
              (mk_exn FileNotFoundError "NotFound"))
    as [Hev Hres]; [vm_compute; reflexivity | reflexivity | vm_compute; reflexivity |].
  split; [exact Hnf|]. split; [exact Hev|].
  apply Hres. intros sys usr e [=].
Defined.

(** ** The graph *)

Lemma next_target_coder s :
  next_target coder s = Some (if is_DONE (s !! "status") then END else Goto coder).
Proof.
  unfold next_target, coder_route. destruct (is_DONE _); reflexivity.
Qed.

Lemma next_target_expected n s t j :
  n = expected_node j → next_target n s = Some t →
  t = END ∨ t = Goto (expected_node (S j)).
Proof.
  intros -> H. destruct j as [|[|j]].
  - injection H as <-. by right.
  - injection H as <-. by right.
  - change (expected_node (S (S j))) with coder in H.
    rewrite next_target_coder in H. injection H as <-.
    destruct (is_DONE _); [by left | by right].
Qed.

Lemma run_from_head m envs limit i n s st :
  (run_from m envs limit i n s).1 !! 0%nat = Some st →
  step_node st = n ∧ step_in st = s.
Proof.
  destruct limit as [|limit]; [discriminate|]. cbn [run_from].
  destruct (node_fn n (envs i) s) as [[u|e] evs]; [|by intros [= <-]].
  destruct (next_target n _) as [[n'|]|]; [|by intros [= <-]..].
  destruct (run_from m envs limit (S i) n' _) as [tr fin]. by intros [= <-].
Qed.

Lemma run_from_empty m envs limit i n s :
  (run_from m envs limit i n s).1 !! 0%nat = None →
  (run_from m envs limit i n s).2 = RecursionLimit s.
Proof.
  destruct limit as [|limit]; [reflexivity|]. cbn [run_from].
  destruct (node_fn n (envs i) s) as [[u|e] evs]; [|discriminate].
  destruct (next_target n _) as [[n'|]|]; [|discriminate..].
  destruct (run_from m envs limit (S i) n' _) as [tr fin]. discriminate.
Qed.

Lemma run_from_facts m envs :
  ∀ limit i n s j st,
    (run_from m envs limit i n s).1 !! j = Some st →
    step_facts m envs limit i (run_from m envs limit i n s).1
      (run_from m envs limit i n s).2 j st.
Proof.
  induction limit as [|limit IH]; intros i n s j st; [discriminate|].
  cbn [run_from].
  destruct (node_fn n (envs i) s) as [[u|e] evs] eqn:Hfn.
  - destruct (next_target n (apply_update m s u)) as [[n'|]|] eqn:Hnext.
    + pose proof (IH (S i) n' (apply_update m s u)) as IH'.
      pose proof (run_from_head m envs limit (S i) n' (apply_update m s u)) as Hhead.
      pose proof (run_from_empty m envs limit (S i) n' (apply_update m s u)) as Hempty.
      destruct (run_from m envs limit (S i) n' (apply_update m s u)) as [tr fin].
      cbn [fst snd] in *. destruct j as [|j].
      * intros [= <-]. unfold step_facts. cbn [step_out step_in step_node step_events step_goto].
        rewrite Nat.add_0_r, Hfn, Hnext.
        split; [reflexivity|]. split; [reflexivity|]. split; [exact Hhead | exact Hempty].
      * intros Hj. specialize (IH' j st Hj). unfold step_facts in *.
        replace (i + S j)%nat with (S i + j)%nat by lia.
        destruct IH' as [Hcall Hrest]. split; [exact Hcall|].
        destruct (step_out st) as [u'|e']; [|exact Hrest].
        cbn zeta in *. destruct Hrest as [Hgoto Hrest]. split; [exact Hgoto|].
        destruct (next_target (step_node st) _) as [[n''|]|]; [exact Hrest| |exact Hrest].
        destruct Hrest as [Hnone Hfin]. split; [exact Hnone|]. rewrite Hfin.
        repeat case_decide; (reflexivity || lia).
    + destruct j as [|j]; [|discriminate]. intros [= <-]. unfold step_facts.
      cbn [step_out step_in step_node step_events step_goto fst snd].
      rewrite Nat.add_0_r, Hfn, Hnext.
      split; [reflexivity|]. split; [reflexivity|]. split; [reflexivity|].
      destruct limit; case_decide; (reflexivity || lia).
    + destruct j as [|j]; [|discriminate]. intros [= <-]. unfold step_facts.
      cbn [step_out step_in step_node step_events step_goto fst snd].
      rewrite Nat.add_0_r, Hfn, Hnext. repeat split.
  - destruct j as [|j]; [|discriminate]. intros [= <-]. unfold step_facts.
    cbn [step_out step_in step_node step_events step_goto fst snd].
    rewrite Nat.add_0_r, Hfn. repeat split.
Qed.

Lemma run_from_goes_on m envs limit i n s j st st' :
  (run_from m envs limit i n s).1 !! j = Some st →
  (run_from m envs limit i n s).1 !! S j = Some st' →
  ∃ u, step_out st = Returned u ∧
       (step_out st, step_events st)
         = node_fn (step_node st) (envs (i + j)%nat) (step_in st) ∧
       next_target (step_node st) (apply_update m (step_in st) u)
         = Some (Goto (step_node st')) ∧
       step_in st' = apply_update m (step_in st) u.
Proof.
  intros Hj HSj. destruct (run_from_facts m envs limit i n s j st Hj) as [Hfn Hrest].
  destruct (step_out st) as [u|e].
  - exists u. cbn zeta in Hrest. destruct Hrest as [_ Hrest].
    destruct (next_target _ _) as [[n'|]|].
    + destruct Hrest as [Hnext _]. destruct (Hnext st' HSj) as [-> ->]. auto.
    + destruct Hrest as [Hnone _]. congruence.
    + congruence.
  - destruct Hrest as (_ & Hnone & _). congruence.
Qed.

Lemma run_from_nodes m envs limit i s :
  ∀ j st,
    (run_from m envs limit i planner s).1 !! j = Some st →
    step_node st = expected_node j.
Proof.
  induction j as [|j IH]; intros st Hj.
  - by destruct (run_from_head _ _ _ _ _ _ _ Hj) as [-> _].
  - destruct (lookup_lt_is_Some_2 (run_from m envs limit i planner s).1 j) as [st0 Hst0].
    { apply lookup_lt_Some in Hj. lia. }
    destruct (run_from_goes_on _ _ _ _ _ _ _ _ _ Hst0 Hj) as (u & _ & _ & Hnext & _).
    destruct (next_target_expected _ _ _ j (IH st0 Hst0) Hnext) as [?|?]; congruence.
Qed.

(** C6: along every run of the graph the planner is the first node executed,
    the architect the second, and every later one is the coder; a coder step
    comes only after the architect step returned a [task_plan] entry holding
    a TaskPlan, which the state entering the first coder step carries; and
    after a coder step that returns, the edge back to the coder is taken
    exactly when the folded state does not carry status DONE (the coder then
    runs next on that state, unless the recursion limit stops the run), and
    the edge to the end exactly when it does (no node runs after it; the run
    then finishes with that state when there is room left under the ceiling,
    and is stopped at the recursion limit when that step was the last one
    the ceiling allowed). *)
Theorem graph_order m envs limit input j st :
  (invoke m envs limit input).1 !! j = Some st →
  step_node st = expected_node j ∧
  (step_node st = coder →
     ∃ st_a p t,
       (1 < j)%nat ∧
       (invoke m envs limit input).1 !! 1%nat = Some st_a ∧
       step_node st_a = architect ∧
       step_out st_a = Returned {[ "task_plan" := VTaskPlan (set_plan t p) ]} ∧
       ∀ st2, (invoke m envs limit input).1 !! 2%nat = Some st2 →
              step_node st2 = coder ∧
              step_in st2 !! "task_plan" = Some (VTaskPlan (set_plan t p))) ∧
  (step_node st = coder →
     ∀ u, step_out st = Returned u →
       (is_DONE (apply_update m (step_in st) u !! "status") = false →
          step_goto st = Some (Goto coder) ∧
          (∀ st', (invoke m envs limit input).1 !! S j = Some st' →
                  step_node st' = coder ∧
                  step_in st' = apply_update m (step_in st) u) ∧
          ((invoke m envs limit input).1 !! S j = None →
           (invoke m envs limit input).2
             = RecursionLimit (apply_update m (step_in st) u))) ∧
       (is_DONE (apply_update m (step_in st) u !! "status") = true →
          step_goto st = Some END ∧
          (invoke m envs limit input).1 !! S j = None ∧
          ((S j < limit)%nat →
           (invoke m envs limit input).2
             = Finished (apply_update m (step_in st) u)) ∧
          ((limit ≤ S j)%nat →
           (invoke m envs limit input).2
             = RecursionLimit (apply_update m (step_in st) u)))).
Proof.
  unfold invoke, entry_point. intros Hj.
  pose proof (run_from_nodes m envs limit 0 input j st Hj) as Hnode.
  split; [exact Hnode|]. split.
  - intros Hcoder. rewrite Hnode in Hcoder.
    destruct j as [|[|j]]; [discriminate.. |].
    destruct (lookup_lt_is_Some_2 (run_from m envs limit 0 planner input).1 1) as [st_a Ha].
    { apply lookup_lt_Some in Hj. lia. }
    destruct (lookup_lt_is_Some_2 (run_from m envs limit 0 planner input).1 2) as [st_c Hc].
    { apply lookup_lt_Some in Hj. lia. }
    pose proof (run_from_nodes m envs limit 0 input 1 st_a Ha) as Hna.
    destruct (run_from_goes_on _ _ _ _ _ _ _ _ _ Ha Hc) as (u & Hout & Hfn & _ & Hin).
    rewrite Hna, Hout in Hfn. cbn [node_fn expected_node] in Hfn.
    destruct (architect_agent_returns (envs (0 + 1)%nat) (step_in st_a) u)
      as (p & t & _ & ->); [by rewrite <- Hfn|].
    exists st_a, p, t. split; [lia|]. split; [exact Ha|]. split; [exact Hna|].
    split; [exact Hout|]. intros st2 H2. rewrite Hc in H2. injection H2 as <-.
    split; [apply (run_from_nodes m envs limit 0 input 2 st_c Hc)|].
    rewrite Hin. destruct m; cbn [apply_update].
    + apply lookup_singleton_eq.
    + apply lookup_union_Some_l, lookup_singleton_eq.
  - intros Hcoder u Hout.
    destruct (run_from_facts m envs limit 0 planner input j st Hj) as [_ Hrest].
    rewrite Hout in Hrest. cbn zeta in Hrest. rewrite Hcoder in Hrest.
    rewrite next_target_coder in Hrest. destruct Hrest as [Hgoto Hrest].
    destruct (is_DONE _).
    + split; [discriminate|]. intros _. destruct Hrest as [Hnone Hfin].
      split; [exact Hgoto|]. split; [exact Hnone|]. rewrite Hfin.
      split; intros Hlim; case_decide; (reflexivity || lia).
    + split; [|discriminate]. intros _. destruct Hrest as [? ?]. auto.
Qed.

Lemma graph_order_witness :
  ∃ st, (invoke Replace (λ _, env_failing) 100 example_input).1 !! 5%nat = Some st ∧
        step_node st = expected_node 5.
Proof.
  eexists. split; [vm_compute; reflexivity|].
  refine (proj1 (graph_order Replace (λ _, env_failing) 100 example_input 5 _ _)).
  vm_compute; reflexivity.
Defined.

(** ** The keys of the returned mappings *)

Lemma get_coder_state_cases state :
  (∃ cs, get_coder_state state = mret cs) ∨
  (∃ e, get_coder_state state = (Raised e, [])).
Proof.
  unfold get_coder_state, getitem, new_CoderState. eff_unfold.
  repeat (case_match; simplify_eq/=); eauto.
Qed.

Lemma coder_agent_returns env state u :
  (coder_agent env state).1 = Returned u →
  ∃ cs, get_coder_state state = mret cs ∧
        u = if decide (length (implementation_steps (task_plan cs))
                       ≤ current_step_idx cs)%nat
            then reported_DONE cs else advanced cs.
Proof.
  intros Hu. destruct (get_coder_state_cases state) as [[cs Hget]|[e Hget]].
  - exists cs. split; [exact Hget|]. case_decide as Hle.
    + rewrite (coder_agent_terminal env state cs Hget Hle) in Hu. by injection Hu.
    + destruct (lookup_lt_is_Some_2 (implementation_steps (task_plan cs))
                  (current_step_idx cs)) as [task Htask]; [lia|].
      rewrite (coder_agent_working env state cs task Hget Htask) in Hu.
      cbn zeta in Hu. destruct (react_agent_invoke env _ _) as [r|e].
      * by injection Hu.
      * destruct (is_Exception e); [by injection Hu | discriminate].
  - unfold coder_agent in Hu. rewrite Hget in Hu. discriminate.
Qed.

(** C10: the mapping a stage returns has its designated keys and no other:
    exactly plan for the planner, exactly task_plan for the architect, and
    for the coder exactly coder_state, with status beside it on the terminal
    call and only then; so none holds user_prompt or a key of an earlier
    stage, and folding the mapping key by key leaves every other key of the
    state as it was. *)
Theorem node_update_keys n env state u :
  (node_fn n env state).1 = Returned u →
  (match n with
   | planner => dom u = {[ "plan" ]}
   | architect => dom u = {[ "task_plan" ]}
   | coder =>
       ∃ cs, get_coder_state state = mret cs ∧
             dom u = if decide (length (implementation_steps (task_plan cs))
                                ≤ current_step_idx cs)%nat
                     then {[ "coder_state"; "status" ]}
                     else {[ "coder_state" ]}
   end) ∧
  dom u ⊆ designated_keys n ∧
  ("user_prompt" ∉ dom u) ∧
  (n ≠ planner → "plan" ∉ dom u) ∧
  (n = coder → "task_plan" ∉ dom u) ∧
  (∀ k, k ∉ dom u → apply_update Update state u !! k = state !! k).
Proof.
  intros Hu.
  assert (Hfold : ∀ k, k ∉ dom u → apply_update Update state u !! k = state !! k).
  { intros k Hk. apply lookup_union_r. by apply not_elem_of_dom. }
  destruct n; cbn [node_fn designated_keys] in *.
  - destruct (planner_agent_returns env state u Hu) as [p ->].
    rewrite dom_singleton_L in *. repeat split; try set_solver; exact Hfold.
  - destruct (architect_agent_returns env state u Hu) as (p & t & _ & ->).
    rewrite dom_singleton_L in *. repeat split; try set_solver; exact Hfold.
  - destruct (coder_agent_returns env state u Hu) as (cs & Hget & ->).
    assert (Hdom : dom (if decide (length (implementation_steps (task_plan cs))
                                   ≤ current_step_idx cs)%nat
                        then reported_DONE cs else advanced cs)
                   = if decide (length (implementation_steps (task_plan cs))
                                ≤ current_step_idx cs)%nat
                     then {[ "coder_state"; "status" ]} else {[ "coder_state" ]}).
    { case_decide; unfold reported_DONE, advanced;
        rewrite ?dom_insert_L, ?dom_singleton_L; reflexivity. }
    rewrite Hdom in *. split; [eauto|].
    case_decide; (split; [set_solver|]); repeat split; try exact Hfold;
      rewrite ?elem_of_union, ?elem_of_singleton; intuition discriminate.
Qed.

Lemma node_update_keys_witness :
  dom (reported_DONE (mk_CoderState one_task 1)) = {[ "coder_state"; "status" ]} ∧
  ("user_prompt" ∉ dom (reported_DONE (mk_CoderState one_task 1))).
Proof.
  destruct (node_update_keys coder env_failing
              {[ "coder_state" := VCoderState (mk_CoderState one_task 1) ]}
              (reported_DONE (mk_CoderState one_task 1)))
    as ((cs & Hget & Hdom) & _ & Hup & _); [vm_compute; reflexivity|].
  split; [|exact Hup].
  rewrite Hdom. injection Hget as <-. reflexivity.
Defined.

(** ** The file tools *)

(** A normalized path has no empty, [.] or [..] segment left, so that the
    prefix test of [within] is a test on directories. *)
Lemma normalize_plain segs :
  ∀ stack, Forall tools.plain_segment stack →
           Forall tools.plain_segment (tools.normalize stack segs).
Proof.
  induction segs as [|seg segs IH]; intros stack Hstack; cbn [tools.normalize].
  - by apply Forall_rev.
  - destruct (String.eqb_spec seg "") as [->|Hne1]; [by apply IH|].
    destruct (String.eqb_spec seg ".") as [->|Hne2]; [by apply IH|].
    cbn [orb].
    destruct (String.eqb_spec seg "..") as [->|Hne3].
    + apply IH. destruct stack; [done|]. by inversion Hstack.
    + apply IH. constructor; [done|exact Hstack].
Qed.

Lemma resolve_plain root p :
  Forall tools.plain_segment root → Forall tools.plain_segment (tools.resolve root p).
Proof.
  intros Hroot. unfold tools.resolve. apply normalize_plain.
  destruct (tools.is_absolute p); [constructor | by apply Forall_rev].
Qed.

Lemma write_file_confined root fs p content q :
  tools.within root q = false →
  (tools.write_file root fs p content).2 !! q = fs !! q.
Proof.
  intros Hq. unfold tools.write_file.
  destruct (tools.within root (tools.resolve root p)) eqn:Hp; [|reflexivity].
  cbn [snd]. apply lookup_insert_ne. intros Heq. rewrite Heq in Hp. congruence.
Qed.

(** C7: a path whose resolution leaves the project root makes [write_file]
    fail with InvalidInput, the file system being left as it was; the check
    comes before the write, and no call of [write_file], refused or not,
    creates or changes a file outside the root. *)
Theorem write_file_traversal_refused root fs p content :
  tools.within root (tools.resolve root p) = false →
  tools.write_file root fs p content = (tools.Err tools.InvalidInput, fs) ∧
  ∀ p' content' q,
    tools.within root q = false →
    (tools.write_file root fs p' content').2 !! q = fs !! q.
Proof.
  intros Hp. split.
  - unfold tools.write_file. by rewrite Hp.
  - intros p' content' q. apply write_file_confined.
Qed.

Lemma write_file_traversal_refused_witness :
  tools.resolve example_root "../../etc/passwd" = ["home"; "etc"; "passwd"] ∧
  tools.write_file example_root ∅ "../../etc/passwd" "x"
    = (tools.Err tools.InvalidInput, ∅).
Proof.
  split; [vm_compute; reflexivity|].
  apply (write_file_traversal_refused example_root ∅ "../../etc/passwd" "x").
  vm_compute; reflexivity.
Defined.

(** A path that goes up and comes back stays inside and is written. *)
Lemma write_file_inside :
  tools.write_file example_root ∅ "css/../styles.css" "body {}"
    = (tools.Ok ["home"; "user"; "project"; "styles.css"],
       {[ ["home"; "user"; "project"; "styles.css"] := "body {}" ]}).
Proof. vm_compute; reflexivity. Qed.

(** ** The prompts *)

(** C9: the prompt functions are functions of their arguments only:
    [planner_prompt] on equal user prompts gives equal strings, the user
    request stands verbatim in the string, between a head and a tail that do
    not depend on it, and [coder_system_prompt] is one fixed string. *)
Theorem prompts_deterministic :
  (∀ u1 u2, u1 = u2 → planner_prompt u1 = planner_prompt u2) ∧
  (∃ pre post, ∀ u, planner_prompt u = pre +:+ u +:+ post) ∧
  (∀ u, is_substring u (planner_prompt u)) ∧
  (∃ fixed, ∀ x, coder_system_prompt x = fixed).
Proof.
  split; [by intros u1 u2 ->|]. split; [|split].
  - eexists _, _. intros u. unfold planner_prompt. reflexivity.
  - intros u. eexists _, _. unfold planner_prompt. reflexivity.
  - exists (coder_system_prompt ()). by intros [].
Qed.

Lemma prompts_deterministic_witness :
  planner_prompt "Build a weather app" = planner_prompt "Build a weather app" ∧
  is_substring "Build a weather app" (planner_prompt "Build a weather app").
Proof.
  destruct prompts_deterministic as (Hdet & _ & Hsub & _).
  split; [exact (Hdet _ _ eq_refl) | exact (Hsub _)].
Defined.

(** ** Runs on concrete worlds *)

(** Every LLM call fails: the default Plan and TaskPlan drive three coder
    steps, and a fourth one reports DONE. *)
Example run_failing_nodes :
  (λ st, (step_node st, step_goto st))
    <$> (invoke Replace (λ _, env_failing) 100 example_input).1
  = [ (planner, Some (Goto architect));
      (architect, Some (Goto coder));
      (coder, Some (Goto coder));
      (coder, Some (Goto coder));
      (coder, Some (Goto coder));
      (coder, Some END) ].
Proof. vm_compute; reflexivity. Qed.

Example run_failing_final :
  (invoke Replace (λ _, env_failing) 100 example_input).2
  = Finished (reported_DONE (mk_CoderState (set_plan default_TaskPlan default_Plan) 3)).
Proof. vm_compute; reflexivity. Qed.

(** Folding by key keeps the earlier entries beside the coder's. *)
Example run_failing_final_by_key :
  match (invoke Update (λ _, env_failing) 100 example_input).2 with
  | Finished s =>
      s !! "user_prompt" = Some (VStr "Build a weather app") ∧
      s !! "plan" = Some (VPlan default_Plan) ∧
      is_DONE (s !! "status") = true ∧
      cursor_of s = Some 3
  | _ => False
  end.
Proof. vm_compute. repeat split; reflexivity. Qed.

(** A ceiling of four nodes stops the run in the coder loop. *)
Example run_failing_limit :
  step_node <$> (invoke Replace (λ _, env_failing) 4 example_input).1
    = [planner; architect; coder; coder] ∧
  ∃ s, (invoke Replace (λ _, env_failing) 4 example_input).2 = RecursionLimit s ∧
       cursor_of s = Some 2.
Proof. split; [vm_compute; reflexivity|]. eexists. split; vm_compute; reflexivity. Qed.

(** The structured call answers: one LLM event, the answer is the plan. *)
Example planner_structured :
  ∃ prompt,
    planner_agent (env_answering default_Plan one_task) example_input
    = (Returned {[ "plan" := VPlan default_Plan ]}, [EvStructured "Plan" prompt]).
Proof. eexists. vm_compute. reflexivity. Qed.

(** No user prompt in the state: [KeyError]. *)
Example planner_no_prompt :
  planner_agent env_failing ∅ = (Raised (mk_exn KeyError "'user_prompt'"), []).
Proof. vm_compute; reflexivity. Qed.

(** A user prompt that is no string is rendered into the prompt, and the
    planner goes on. *)
Example planner_None_prompt :
  planner_agent (env_answering default_Plan one_task) {[ "user_prompt" := VNone ]}
  = (Returned {[ "plan" := VPlan default_Plan ]},
     [EvStructured "Plan" (planner_prompt_text "None")]).
Proof. vm_compute; reflexivity. Qed.

(** Six nodes are needed here: under a ceiling of six all of them run and the
    run is stopped at the recursion limit; a ceiling of seven lets it
    finish. *)
Example run_failing_at_the_ceiling :
  length (invoke Replace (λ _, env_failing) 6 example_input).1 = 6 ∧
  (invoke Replace (λ _, env_failing) 6 example_input).2
    = RecursionLimit
        (reported_DONE (mk_CoderState (set_plan default_TaskPlan default_Plan) 3)) ∧
  length (invoke Replace (λ _, env_failing) 7 example_input).1 = 6 ∧
  (invoke Replace (λ _, env_failing) 7 example_input).2
    = Finished
        (reported_DONE (mk_CoderState (set_plan default_TaskPlan default_Plan) 3)).
Proof. repeat split; vm_compute; reflexivity. Qed.

(** An absolute path is taken as it is, and refused. *)
Example write_file_absolute :
  tools.write_file example_root ∅ "/etc/passwd" "x" = (tools.Err tools.InvalidInput, ∅).
Proof. vm_compute; reflexivity. Qed.

(** What was written is what is read. *)
Example write_then_read :
  tools.read_file example_root
    (tools.write_file example_root ∅ "index.html" "<html></html>").2 "./index.html"
  = tools.Ok "<html></html>".
Proof. vm_compute; reflexivity. Qed.

(** * Further properties *)

(** ** Strings *)

Lemma string_app_cons (c : ascii) (a b : string) :
  String c a +:+ b = String c (a +:+ b).
Proof. reflexivity. Qed.

Lemma string_length_app (a b : string) :
  String.length (a +:+ b) = (String.length a + String.length b)%nat.
Proof.
  induction a as [|c a IH]; [reflexivity|].
  rewrite string_app_cons. cbn [String.length]. by rewrite IH.
Qed.

Lemma string_app_inj_r (a b post : string) : a +:+ post = b +:+ post → a = b.
Proof.
  revert b. induction a as [|c a IH]; intros [|c' b] H.
  - reflexivity.
  - apply (f_equal String.length) in H.
    rewrite !string_length_app in H. cbn [String.length] in H. lia.
  - apply (f_equal String.length) in H.
    rewrite !string_length_app in H. cbn [String.length] in H. lia.
  - rewrite !string_app_cons in H. injection H as -> H. f_equal. by apply IH.
Qed.

Lemma string_app_inj_l (pre a b : string) : pre +:+ a = pre +:+ b → a = b.
Proof.
  induction pre as [|c pre IH]; [done|].
  rewrite !string_app_cons. intros [= H]. by apply IH.
Qed.

Lemma string_app_assoc (a b c : string) : (a +:+ b) +:+ c = a +:+ (b +:+ c).
Proof.
  induction a as [|x a IH]; [reflexivity|].
  rewrite !string_app_cons. by rewrite IH.
Qed.

Lemma is_substring_app_l needle hay post :
  is_substring needle hay → is_substring needle (hay +:+ post).
Proof.
  intros (pre & post' & ->). exists pre, (post' +:+ post).
  by rewrite !string_app_assoc.
Qed.




(** ** The prompts, further *)

Lemma planner_prompt_text_substring u : is_substring u (planner_prompt_text u).
Proof.
  unfold planner_prompt_text. apply is_substring_app_l.
  eexists _, _. unfold planner_prompt. reflexivity.
Qed.

Lemma architect_prompt_text_substring d : is_substring d (architect_prompt_text d).
Proof.
  unfold architect_prompt_text. apply is_substring_app_l.
  eexists _, _. unfold architect_prompt. reflexivity.
Qed.

(** X1: two user requests give the same planner prompt, and the same text
    sent to the LLM, only when they are the same request; the request stands
    verbatim in the text that is sent. *)
Theorem planner_prompt_inj u1 u2 :
  (planner_prompt u1 = planner_prompt u2 ↔ u1 = u2) ∧
  (planner_prompt_text u1 = planner_prompt_text u2 ↔ u1 = u2) ∧
  is_substring u1 (planner_prompt_text u1).
Proof.
  assert (Hinj : ∀ a b, planner_prompt a = planner_prompt b → a = b).
  { intros a b H. unfold planner_prompt in H.
    apply string_app_inj_l in H. by apply string_app_inj_r in H. }
  split; [split; [apply Hinj | by intros ->]|].
  split; [split; [|by intros ->]|].
  - intros H. unfold planner_prompt_text in H. apply string_app_inj_r in H.
    by apply Hinj.
  - apply planner_prompt_text_substring.
Qed.

(** X2: [architect_prompt] embeds the plan text verbatim between a fixed head
    and a fixed tail, and two plan texts give the same prompt, and the same
    text sent to the LLM, only when they are the same text. *)
Theorem architect_prompt_inj d1 d2 :
  (∃ pre post, ∀ d, architect_prompt d = pre +:+ d +:+ post) ∧
  (architect_prompt d1 = architect_prompt d2 ↔ d1 = d2) ∧
  (architect_prompt_text d1 = architect_prompt_text d2 ↔ d1 = d2) ∧
  is_substring d1 (architect_prompt_text d1).
Proof.
  assert (Hinj : ∀ a b, architect_prompt a = architect_prompt b → a = b).
  { intros a b H. unfold architect_prompt in H.
    apply string_app_inj_l in H. by apply string_app_inj_r in H. }
  split; [eexists _, _; intros d; unfold architect_prompt; reflexivity|].
  split; [split; [apply Hinj | by intros ->]|].
  split; [split; [|by intros ->]|].
  - intros H. unfold architect_prompt_text in H. apply string_app_inj_r in H.
    by apply Hinj.
  - apply architect_prompt_text_substring.
Qed.

(** ** planner_agent, path by path *)

Lemma planner_agent_cases env state u :
  state !! "user_prompt" = Some (VStr u) →
  planner_agent env state =
    let t := planner_prompt_text u in
    match structured_Plan env t with
    | Returned (Some p) =>
        (Returned {[ "plan" := VPlan p ]}, [EvStructured "Plan" t])
    | Returned None =>
        (Raised (mk_exn ValueError "Planner did not return a valid response."),
         [EvStructured "Plan" t])
    | Raised _ =>
        match json_Plan env t with
        | Returned p =>
            (Returned {[ "plan" := VPlan p ]}, [EvStructured "Plan" t; EvJsonChain t])
        | Raised e =>
            if is_Exception e then
              (Returned {[ "plan" := VPlan default_Plan ]},
               [EvStructured "Plan" t; EvJsonChain t;
                EvPrint ("Planning error: " +:+ exn_str e)])
            else (Raised e, [EvStructured "Plan" t; EvJsonChain t])
        end
    end.
Proof.
  intros Hprompt. unfold planner_agent, getitem. rewrite Hprompt.
  eff_unfold. cbn beta iota zeta. fold (planner_prompt_text u).
  unfold json_Plan.
  destruct (structured_Plan env _) as [[p|]|e1]; [reflexivity..|].
  cbn beta iota zeta.
  destruct (json_chain env _) as [d|e2]; cbn beta iota zeta.
  - destruct (Plan_kwargs env d) as [p|e2]; cbn beta iota zeta; [reflexivity|].
    destruct (is_Exception e2); reflexivity.
  - destruct (is_Exception e2); reflexivity.
Qed.

Lemma architect_agent_cases env state p :
  state !! "plan" = Some (VPlan p) →
  architect_agent env state =
    let t := architect_prompt_text (model_dump_json env p) in
    match structured_TaskPlan env t with
    | Returned (Some tp) =>
        (Returned {[ "task_plan" := VTaskPlan (set_plan tp p) ]},
         [EvStructured "TaskPlan" t])
    | Returned None =>
        (Raised (mk_exn ValueError "Architect did not return a valid response."),
         [EvStructured "TaskPlan" t])
    | Raised _ =>
        match json_TaskPlan env t with
        | Returned tp =>
            (Returned {[ "task_plan" := VTaskPlan (set_plan tp p) ]},
             [EvStructured "TaskPlan" t; EvJsonChain t])
        | Raised e =>
            if is_Exception e then
              (Returned {[ "task_plan" := VTaskPlan (set_plan default_TaskPlan p) ]},
               [EvStructured "TaskPlan" t; EvJsonChain t;
                EvPrint ("Architecture error: " +:+ exn_str e)])
            else (Raised e, [EvStructured "TaskPlan" t; EvJsonChain t])
        end
    end.
Proof.
  intros Hplan. unfold architect_agent, getitem, as_Plan. rewrite Hplan.
  eff_unfold. cbn beta iota zeta. fold (architect_prompt_text (model_dump_json env p)).
  unfold json_TaskPlan.
  destruct (structured_TaskPlan env _) as [[tp|]|e1]; [reflexivity..|].
  cbn beta iota zeta.
  destruct (json_chain env _) as [d|e2]; cbn beta iota zeta.
  - destruct (TaskPlan_kwargs env d) as [tp|e2]; cbn beta iota zeta; [reflexivity|].
    destruct (is_Exception e2); reflexivity.
  - destruct (is_Exception e2); reflexivity.
Qed.

Lemma Returned_plan_inj (p q : Plan) :
  (Returned ({[ "plan" := VPlan p ]} : gmap string value))
    = Returned {[ "plan" := VPlan q ]} → p = q.
Proof.
  intros H.
  apply (f_equal (λ o, match o with
                       | Returned m => (m : gmap string value) !! "plan"
                       | Raised _ => None
                       end)) in H.
  rewrite !lookup_singleton_eq in H. by injection H.
Qed.

Lemma Returned_task_plan_inj (t t' : TaskPlan) :
  (Returned ({[ "task_plan" := VTaskPlan t ]} : gmap string value))
    = Returned {[ "task_plan" := VTaskPlan t' ]} → t = t'.
Proof.
  intros H.
  apply (f_equal (λ o, match o with
                       | Returned m => (m : gmap string value) !! "task_plan"
                       | Raised _ => None
                       end)) in H.
  rewrite !lookup_singleton_eq in H. by injection H.
Qed.

Lemma singleton_plan_inj (p q : Plan) :
  ({[ "plan" := VPlan p ]} : gmap string value) = {[ "plan" := VPlan q ]} → p = q.
Proof.
  intros H. apply (f_equal (λ m : gmap string value, m !! "plan")) in H.
  rewrite !lookup_singleton_eq in H. by injection H.
Qed.

Lemma singleton_task_plan_inj (t t' : TaskPlan) :
  ({[ "task_plan" := VTaskPlan t ]} : gmap string value)
    = {[ "task_plan" := VTaskPlan t' ]} → t = t'.
Proof.
  intros H. apply (f_equal (λ m : gmap string value, m !! "task_plan")) in H.
  rewrite !lookup_singleton_eq in H. by injection H.
Qed.

(** X3: on a string user prompt, [planner_agent] returns the plan [p] exactly
    when the structured call answered [p], or the structured call raised and
    the freeform attempt gave [p], or both attempts raised (the second an
    Exception) and [p] is the default Plan: an answer of the LLM is never
    replaced by the default. *)
Theorem planner_agent_plan_source env state u p :
  state !! "user_prompt" = Some (VStr u) →
  (planner_agent env state).1 = Returned {[ "plan" := VPlan p ]} ↔
  structured_Plan env (planner_prompt_text u) = Returned (Some p) ∨
  (∃ e1, structured_Plan env (planner_prompt_text u) = Raised e1 ∧
         json_Plan env (planner_prompt_text u) = Returned p) ∨
  (∃ e1 e2, structured_Plan env (planner_prompt_text u) = Raised e1 ∧
            json_Plan env (planner_prompt_text u) = Raised e2 ∧
            is_Exception e2 = true ∧ p = default_Plan).
Proof.
  intros Hprompt. rewrite (planner_agent_cases env state u Hprompt). cbn zeta.
  split.
  - destruct (structured_Plan env _) as [[q|]|e1]; cbn [fst]; intros H.
    + apply Returned_plan_inj in H. left. by subst.
    + discriminate.
    + right. destruct (json_Plan env _) as [q|e2]; cbn [fst] in H.
      * apply Returned_plan_inj in H. left. subst. eauto.
      * destruct (is_Exception e2) eqn:He2; cbn [fst] in H; [|discriminate].
        apply Returned_plan_inj in H. right. subst.
        by exists e1, e2.
  - intros [-> | [(e1 & -> & ->) | (e1 & e2 & -> & -> & -> & ->)]]; reflexivity.
Qed.

Lemma planner_agent_plan_source_witness :
  (planner_agent (env_json other_Plan one_task) example_input).1
    = Returned {[ "plan" := VPlan other_Plan ]}.
Proof.
  apply (planner_agent_plan_source (env_json other_Plan one_task) example_input
           "Build a weather app" other_Plan); [vm_compute; reflexivity|].
  right. left. exists boom. split; reflexivity.
Defined.

(** X4: on a string user prompt, the only way [planner_agent] raises is the
    guard on a structured call that handed back [None] (a ValueError), or a
    raise of the freeform attempt that is no instance of Exception, passed
    on as it is; no Exception raised by an LLM call or by the constructor
    leaves the planner. *)
Theorem planner_agent_raises env state u e :
  state !! "user_prompt" = Some (VStr u) →
  (planner_agent env state).1 = Raised e ↔
  (structured_Plan env (planner_prompt_text u) = Returned None ∧
   e = mk_exn ValueError "Planner did not return a valid response.") ∨
  (∃ e1, structured_Plan env (planner_prompt_text u) = Raised e1 ∧
         json_Plan env (planner_prompt_text u) = Raised e ∧
         is_Exception e = false).
Proof.
  intros Hprompt. rewrite (planner_agent_cases env state u Hprompt). cbn zeta.
  split.
  - destruct (structured_Plan env _) as [[q|]|e1]; cbn [fst]; intros H.
    + discriminate.
    + injection H as <-. by left.
    + right. destruct (json_Plan env _) as [q|e2]; cbn [fst] in H; [discriminate|].
      destruct (is_Exception e2) eqn:He2; cbn [fst] in H; [discriminate|].
      injection H as <-. by exists e1.
  - intros [[-> ->] | (e1 & -> & -> & ->)]; reflexivity.
Qed.

Lemma planner_agent_raises_witness :
  (planner_agent env_none example_input).1
    = Raised (mk_exn ValueError "Planner did not return a valid response.").
Proof.
  apply (planner_agent_raises env_none example_input "Build a weather app");
    [vm_compute; reflexivity|].
  left. split; reflexivity.
Defined.

(** X5: on a string user prompt, [planner_agent] calls the LLM once when the
    structured call returns and twice when it raises, the structured call
    first and both times with the same text, which holds the user request;
    and it writes a console line exactly when it falls back to the default
    Plan, the line holding the text of the exception. *)
Theorem planner_agent_LLM_calls env state u :
  state !! "user_prompt" = Some (VStr u) →
  List.filter is_LLM_call (planner_agent env state).2 =
    match structured_Plan env (planner_prompt_text u) with
    | Returned _ => [EvStructured "Plan" (planner_prompt_text u)]
    | Raised _ => [EvStructured "Plan" (planner_prompt_text u);
                   EvJsonChain (planner_prompt_text u)]
    end ∧
  is_substring u (planner_prompt_text u) ∧
  List.filter is_console (planner_agent env state).2 =
    match structured_Plan env (planner_prompt_text u),
          json_Plan env (planner_prompt_text u) with
    | Raised _, Raised e =>
        if is_Exception e then [EvPrint ("Planning error: " +:+ exn_str e)] else []
    | _, _ => []
    end.
Proof.
  intros Hprompt. rewrite (planner_agent_cases env state u Hprompt). cbn zeta.
  split; [|split].
  - destruct (structured_Plan env _) as [[q|]|e1]; [reflexivity..|].
    destruct (json_Plan env _) as [q|e2]; [reflexivity|].
    destruct (is_Exception e2); reflexivity.
  - apply planner_prompt_text_substring.
  - destruct (structured_Plan env _) as [[q|]|e1]; [reflexivity..|].
    destruct (json_Plan env _) as [q'|e2]; [reflexivity|].
    destruct (is_Exception e2); reflexivity.
Qed.

Lemma planner_agent_LLM_calls_witness :
  List.filter is_LLM_call (planner_agent env_failing example_input).2
    = [EvStructured "Plan" (planner_prompt_text "Build a weather app");
       EvJsonChain (planner_prompt_text "Build a weather app")] ∧
  List.filter is_console (planner_agent env_failing example_input).2
    = [EvPrint "Planning error: boom"].
Proof.
  destruct (planner_agent_LLM_calls env_failing example_input "Build a weather app")
    as (H1 & _ & H2); [vm_compute; reflexivity|].
  split; [exact H1 | exact H2].
Defined.

(** ** architect_agent, path by path *)

(** X6: on a state holding the Plan [p], [architect_agent] returns the
    TaskPlan [t] exactly when [t] has the implementation steps, unchanged and
    in the same order, of the structured answer, or of the freeform answer
    after the structured call raised, or of the default after both raised
    (the second an Exception); and the back-reference of [t] is [p], whatever
    plan the answer carried. *)
Theorem architect_agent_task_plan_source env state p t :
  state !! "plan" = Some (VPlan p) →
  (architect_agent env state).1 = Returned {[ "task_plan" := VTaskPlan t ]} ↔
  ∃ tp,
    implementation_steps t = implementation_steps tp ∧
    plan t = Some p ∧
    (structured_TaskPlan env (architect_prompt_text (model_dump_json env p))
       = Returned (Some tp) ∨
     (∃ e1, structured_TaskPlan env (architect_prompt_text (model_dump_json env p))
              = Raised e1 ∧
            json_TaskPlan env (architect_prompt_text (model_dump_json env p))
              = Returned tp) ∨
     (∃ e1 e2, structured_TaskPlan env (architect_prompt_text (model_dump_json env p))
                 = Raised e1 ∧
               json_TaskPlan env (architect_prompt_text (model_dump_json env p))
                 = Raised e2 ∧
               is_Exception e2 = true ∧ tp = default_TaskPlan)).
Proof.
  intros Hplan. rewrite (architect_agent_cases env state p Hplan). cbn zeta.
  split.
  - destruct (structured_TaskPlan env _) as [[tp|]|e1]; cbn [fst]; intros H.
    + apply Returned_task_plan_inj in H. subst t. exists tp. auto.
    + discriminate.
    + destruct (json_TaskPlan env _) as [tp|e2]; cbn [fst] in H.
      * apply Returned_task_plan_inj in H. subst t. exists tp.
        split; [reflexivity|]. split; [reflexivity|]. right. left. eauto.
      * destruct (is_Exception e2) eqn:He2; cbn [fst] in H; [|discriminate].
        apply Returned_task_plan_inj in H. subst t. exists default_TaskPlan.
        split; [reflexivity|]. split; [reflexivity|]. right. right. by exists e1, e2.
  - intros (tp & Hsteps & Hback & Hsrc).
    assert (t = set_plan tp p) as ->.
    { destruct t as [steps back]. cbn in Hsteps, Hback. subst. reflexivity. }
    destruct Hsrc as [-> | [(e1 & -> & ->) | (e1 & e2 & -> & -> & -> & ->)]];
      reflexivity.
Qed.

Lemma architect_agent_task_plan_source_witness :
  (architect_agent (env_answering default_Plan two_tasks)
     {[ "plan" := VPlan other_Plan ]}).1
    = Returned {[ "task_plan" :=
                    VTaskPlan (mk_TaskPlan (implementation_steps two_tasks)
                                           (Some other_Plan)) ]}.
Proof.
  apply (architect_agent_task_plan_source (env_answering default_Plan two_tasks)
           {[ "plan" := VPlan other_Plan ]} other_Plan);
    [vm_compute; reflexivity|].
  exists two_tasks. split; [reflexivity|]. split; [reflexivity|]. by left.
Defined.

(** X7: on a state holding a Plan, the only way [architect_agent] raises is
    the guard on a structured call that handed back [None] (a ValueError), or
    a raise of the freeform attempt that is no instance of Exception, passed
    on as it is. *)
Theorem architect_agent_raises env state p e :
  state !! "plan" = Some (VPlan p) →
  (architect_agent env state).1 = Raised e ↔
  (structured_TaskPlan env (architect_prompt_text (model_dump_json env p))
     = Returned None ∧
   e = mk_exn ValueError "Architect did not return a valid response.") ∨
  (∃ e1, structured_TaskPlan env (architect_prompt_text (model_dump_json env p))
           = Raised e1 ∧
         json_TaskPlan env (architect_prompt_text (model_dump_json env p))
           = Raised e ∧
         is_Exception e = false).
Proof.
  intros Hplan. rewrite (architect_agent_cases env state p Hplan). cbn zeta.
  split.
  - destruct (structured_TaskPlan env _) as [[q|]|e1]; cbn [fst]; intros H.
    + discriminate.
    + injection H as <-. by left.
    + right. destruct (json_TaskPlan env _) as [q|e2]; cbn [fst] in H; [discriminate|].
      destruct (is_Exception e2) eqn:He2; cbn [fst] in H; [discriminate|].
      injection H as <-. by exists e1.
  - intros [[-> ->] | (e1 & -> & -> & ->)]; reflexivity.
Qed.

Lemma architect_agent_raises_witness :
  (architect_agent env_none {[ "plan" := VPlan other_Plan ]}).1
    = Raised (mk_exn ValueError "Architect did not return a valid response.").
Proof.
  apply (architect_agent_raises env_none {[ "plan" := VPlan other_Plan ]} other_Plan);
    [vm_compute; reflexivity|].
  left. split; reflexivity.
Defined.

(** X8: on a state holding the Plan [p], [architect_agent] calls the LLM
    once when the structured call returns and twice when it raises, both
    times with the same text, which holds the JSON dump of [p] verbatim; and
    it writes a console line exactly when it falls back to the default
    tasks. *)
Theorem architect_agent_LLM_calls env state p :
  state !! "plan" = Some (VPlan p) →
  List.filter is_LLM_call (architect_agent env state).2 =
    match structured_TaskPlan env (architect_prompt_text (model_dump_json env p)) with
    | Returned _ =>
        [EvStructured "TaskPlan" (architect_prompt_text (model_dump_json env p))]
    | Raised _ =>
        [EvStructured "TaskPlan" (architect_prompt_text (model_dump_json env p));
         EvJsonChain (architect_prompt_text (model_dump_json env p))]
    end ∧
  is_substring (model_dump_json env p)
    (architect_prompt_text (model_dump_json env p)) ∧
  List.filter is_console (architect_agent env state).2 =
    match structured_TaskPlan env (architect_prompt_text (model_dump_json env p)),
          json_TaskPlan env (architect_prompt_text (model_dump_json env p)) with
    | Raised _, Raised e =>
        if is_Exception e then [EvPrint ("Architecture error: " +:+ exn_str e)] else []
    | _, _ => []
    end.
Proof.
  intros Hplan. rewrite (architect_agent_cases env state p Hplan). cbn zeta.
  split; [|split].
  - destruct (structured_TaskPlan env _) as [[q|]|e1]; [reflexivity..|].
    destruct (json_TaskPlan env _) as [q|e2]; [reflexivity|].
    destruct (is_Exception e2); reflexivity.
  - apply architect_prompt_text_substring.
  - destruct (structured_TaskPlan env _) as [[q|]|e1]; [reflexivity..|].
    destruct (json_TaskPlan env _) as [q'|e2]; [reflexivity|].
    destruct (is_Exception e2); reflexivity.
Qed.

Lemma architect_agent_LLM_calls_witness :
  List.filter is_LLM_call
    (architect_agent (env_answering default_Plan two_tasks)
       {[ "plan" := VPlan other_Plan ]}).2
    = [EvStructured "TaskPlan" (architect_prompt_text "{}")] ∧
  List.filter is_console
    (architect_agent (env_answering default_Plan two_tasks)
       {[ "plan" := VPlan other_Plan ]}).2 = [].
Proof.
  destruct (architect_agent_LLM_calls (env_answering default_Plan two_tasks)
              {[ "plan" := VPlan other_Plan ]} other_Plan)
    as (H1 & _ & H2); [vm_compute; reflexivity|].
  split; [exact H1 | exact H2].
Defined.

(** ** What the stages read *)

Lemma coder_agent_get_coder_state env state state' :
  get_coder_state state = get_coder_state state' →
  coder_agent env state = coder_agent env state'.
Proof. intros H. unfold coder_agent. by rewrite H. Qed.

(** X9: a stage whose input key is missing raises KeyError before any
    external call: on [user_prompt] for the planner, on [plan] for the
    architect, and for the coder on [task_plan], which it needs only when
    [coder_state] is absent or None. *)
Theorem node_missing_key env state :
  (state !! "user_prompt" = None →
   ∃ e, planner_agent env state = (Raised e, []) ∧ exn_cls e = KeyError) ∧
  (state !! "plan" = None →
   ∃ e, architect_agent env state = (Raised e, []) ∧ exn_cls e = KeyError) ∧
  (state !! "coder_state" = None ∨ state !! "coder_state" = Some VNone →
   state !! "task_plan" = None →
   ∃ e, coder_agent env state = (Raised e, []) ∧ exn_cls e = KeyError).
Proof.
  split; [|split].
  - intros H. unfold planner_agent, getitem. rewrite H. by eexists.
  - intros H. unfold architect_agent, getitem. rewrite H. by eexists.
  - intros Hcs Htp. unfold coder_agent, get_coder_state, getitem.
    destruct Hcs as [-> | ->]; rewrite Htp; by eexists.
Qed.

Lemma node_missing_key_witness :
  (∃ e, planner_agent env_failing ∅ = (Raised e, []) ∧ exn_cls e = KeyError) ∧
  (∃ e, coder_agent env_failing {[ "coder_state" := VNone ]} = (Raised e, []) ∧
        exn_cls e = KeyError).
Proof.
  destruct (node_missing_key env_failing ∅) as (H1 & _ & _).
  destruct (node_missing_key env_failing {[ "coder_state" := VNone ]})
    as (_ & _ & H3).
  split; [apply H1 | apply H3]; [vm_compute; reflexivity | right | ];
    vm_compute; reflexivity.
Defined.

(** X10: what a stage does depends on the state only through the keys it
    reads: [user_prompt] for the planner, [plan] for the architect, and for
    the coder [coder_state], with [task_plan] only when [coder_state] is
    absent or None. *)
Theorem node_reads env state state' :
  (state !! "user_prompt" = state' !! "user_prompt" →
   planner_agent env state = planner_agent env state') ∧
  (state !! "plan" = state' !! "plan" →
   architect_agent env state = architect_agent env state') ∧
  (state !! "coder_state" = state' !! "coder_state" →
   (state !! "coder_state" = None ∨ state !! "coder_state" = Some VNone →
    state !! "task_plan" = state' !! "task_plan") →
   coder_agent env state = coder_agent env state').
Proof.
  split; [|split].
  - intros H. unfold planner_agent, getitem. by rewrite H.
  - intros H. unfold architect_agent, getitem. by rewrite H.
  - intros Hcs Htp. apply coder_agent_get_coder_state.
    unfold get_coder_state, getitem. rewrite <- Hcs.
    destruct (state !! "coder_state") as [[]|] eqn:E; try reflexivity;
      rewrite Htp by auto; reflexivity.
Qed.

Lemma node_reads_witness :
  coder_agent env_failing
    {[ "coder_state" := VCoderState (mk_CoderState one_task 0);
       "task_plan" := VTaskPlan two_tasks ]}
  = coder_agent env_failing
      {[ "coder_state" := VCoderState (mk_CoderState one_task 0) ]}.
Proof.
  destruct (node_reads env_failing
              {[ "coder_state" := VCoderState (mk_CoderState one_task 0);
                 "task_plan" := VTaskPlan two_tasks ]}
              {[ "coder_state" := VCoderState (mk_CoderState one_task 0) ]})
    as (_ & _ & H).
  apply H; [vm_compute; reflexivity|].
  intros [H'|H']; vm_compute in H'; discriminate.
Defined.

(** ** coder_agent, further *)

Lemma mret_CoderState_inj (a b : CoderState) :
  (mret a : Eff CoderState) = mret b → a = b.
Proof. intros H. by injection H. Qed.

Lemma coder_agent_working_events env state cs task :
  get_coder_state state = mret cs →
  implementation_steps (task_plan cs) !! current_step_idx cs = Some task →
  raises_only_Exception env →
  ∃ tail,
    coder_agent env state =
      (Returned (advanced cs),
       [EvReadFile (filepath task);
        EvReactAgent (coder_system_prompt ())
          (coder_user_prompt task (existing_content_for env task))] ++ tail).
Proof.
  intros Hget Htask Hexc.
  rewrite (coder_agent_working env state cs task Hget Htask). cbn zeta.
  destruct (react_agent_invoke env _ _) as [r|e] eqn:Hreact.
  - exists []. by rewrite app_nil_r.
  - rewrite (Hexc _ _ _ Hreact). by eexists [_].
Qed.

(** X11: a call of [coder_agent] that returns gives back a CoderState with
    the same task plan; it reports DONE exactly when the cursor it found was
    at or past the end, and then the cursor is unchanged; otherwise the cursor
    is one more than before and not past the end. *)
Theorem coder_agent_state_kept env state cs u :
  get_coder_state state = mret cs →
  (coder_agent env state).1 = Returned u →
  ∃ cs',
    coder_state_of u = Some cs' ∧
    task_plan cs' = task_plan cs ∧
    (is_DONE (u !! "status") = true ↔
     (length (implementation_steps (task_plan cs)) ≤ current_step_idx cs)%nat) ∧
    (is_DONE (u !! "status") = true → current_step_idx cs' = current_step_idx cs) ∧
    (is_DONE (u !! "status") = false →
     current_step_idx cs' = (current_step_idx cs + 1)%nat ∧
     (current_step_idx cs' ≤ length (implementation_steps (task_plan cs)))%nat).
Proof.
  intros Hget Hu.
  destruct (coder_agent_returns env state u Hu) as (cs0 & Hget0 & ->).
  rewrite Hget in Hget0. apply mret_CoderState_inj in Hget0. subst cs0.
  case_decide as Hle.
  - exists cs. rewrite reported_DONE_status.
    split; [reflexivity|]. split; [reflexivity|]. split; [done|].
    split; [done | discriminate].
  - eexists. split; [reflexivity|]. rewrite advanced_status. cbn.
    split; [reflexivity|]. split; [split; [discriminate | done]|].
    split; [discriminate|]. intros _. lia.
Qed.

Lemma coder_agent_state_kept_witness :
  ∃ cs',
    coder_state_of (advanced (mk_CoderState two_tasks 1)) = Some cs' ∧
    task_plan cs' = two_tasks ∧ current_step_idx cs' = 2.
Proof.
  destruct (coder_agent_state_kept env_failing
              {[ "coder_state" := VCoderState (mk_CoderState two_tasks 1) ]}
              (mk_CoderState two_tasks 1)
              (advanced (mk_CoderState two_tasks 1)))
    as (cs' & H1 & H2 & _ & _ & H3); [vm_compute; reflexivity..|].
  exists cs'. split; [exact H1|]. split; [exact H2|].
  exact (proj1 (H3 eq_refl)).
Defined.



(** The cut is by characters, not by bytes: of the text made of an e with an
    acute accent (two bytes, 195 and 169) and an x, the first character is
    the two bytes. *)
Example take_chars_accent :
  take_chars 1 (String (ascii_of_nat 195) (String (ascii_of_nat 169) "x"))
    = String (ascii_of_nat 195) (String (ascii_of_nat 169) "") ∧
  char_count (String (ascii_of_nat 195) (String (ascii_of_nat 169) "x")) = 2 ∧
  take_chars 3 "boom" = "boo".
Proof. repeat split; vm_compute; reflexivity. Qed.

(** X13: a raise of the interaction that is no instance of Exception (an
    interrupt) leaves [coder_agent] as it is: no mapping is returned, so the
    cursor is not advanced, and no console line is written; the same raise
    from the read of the existing content is absorbed, and the interaction
    still runs, on the empty content. *)
Theorem coder_agent_passes_on env state cs task :
  get_coder_state state = mret cs →
  implementation_steps (task_plan cs) !! current_step_idx cs = Some task →
  (∀ e, react_agent_invoke env (coder_system_prompt ())
          (coder_user_prompt task (existing_content_for env task)) = Raised e →
        is_Exception e = false →
        coder_agent env state =
          (Raised e,
           [EvReadFile (filepath task);
            EvReactAgent (coder_system_prompt ())
              (coder_user_prompt task (existing_content_for env task))])) ∧
  (∀ e0, read_file_invoke env (filepath task) = Raised e0 →
         is_Exception e0 = false →
         EvReactAgent (coder_system_prompt ()) (coder_user_prompt task "")
           ∈ (coder_agent env state).2).
Proof.
  intros Hget Htask.
  rewrite (coder_agent_working env state cs task Hget Htask). cbn zeta. split.
  - intros e -> ->. reflexivity.
  - intros e0 Hread _. unfold existing_content_for. rewrite Hread.
    destruct (react_agent_invoke env _ _) as [r|e]; [set_solver|].
    destruct (is_Exception e); set_solver.
Qed.

Lemma coder_agent_passes_on_witness :
  ∃ evs, coder_agent env_interrupted {[ "task_plan" := VTaskPlan one_task ]}
         = (Raised (mk_exn KeyboardInterrupt ""), evs) ∧
         List.filter is_console evs = [].
Proof.
  destruct (coder_agent_passes_on env_interrupted
              {[ "task_plan" := VTaskPlan one_task ]}
              (mk_CoderState one_task 0)
              (mk_ImplementationTask "index.html" "Create the page"))
    as [H _]; [vm_compute; reflexivity | reflexivity |].
  eexists. split; [apply H; reflexivity | reflexivity].
Defined.

Lemma coder_calls_from envs tp :
  (∀ i, raises_only_Exception (envs i)) →
  ∀ n i state k j task,
    get_coder_state state = mret (mk_CoderState tp k) →
    implementation_steps tp !! (k + j)%nat = Some task →
    (j < n)%nat →
    ∃ r tail,
      coder_calls envs n i state !! j = Some r ∧
      r = (Returned (advanced (mk_CoderState tp (k + j))),
           [EvReadFile (filepath task);
            EvReactAgent (coder_system_prompt ())
              (coder_user_prompt task (existing_content_for (envs (i + j)%nat) task))]
           ++ tail).
Proof.
  intros Hexc. induction n as [|n IH]; intros i state k j task Hget Htask Hj; [lia|].
  cbn [coder_calls]. destruct j as [|j].
  - rewrite !Nat.add_0_r in *.
    destruct (coder_agent_working_events (envs i) state (mk_CoderState tp k) task Hget Htask (Hexc i))
      as [tail Hcall].
    exists (coder_agent (envs i) state), tail. split; [reflexivity | exact Hcall].
  - assert (Hk : (k < length (implementation_steps tp))%nat).
    { apply lookup_lt_Some in Htask. lia. }
    rewrite (coder_agent_returns_advanced (envs i) state (mk_CoderState tp k) Hget Hk (Hexc i)).
    cbn [lookup list_lookup].
    destruct (IH (S i) (feed_back state (advanced (mk_CoderState tp k)))
                (k + 1)%nat j task) as (r & tail & Hr & Heq).
    + apply get_coder_state_feed_back. reflexivity.
    + by replace (k + 1 + j)%nat with (k + S j)%nat by lia.
    + lia.
    + exists r, tail. split; [exact Hr|]. rewrite Heq.
      by replace (k + 1 + j)%nat with (k + S j)%nat by lia;
         replace (S i + j)%nat with (i + S j)%nat by lia.
Qed.

(** X14: driven by hand from a state with a TaskPlan and no CoderState, the
    call number j + 1 of [coder_agent] works on the implementation step at
    index j: it reads that step's file, runs one interaction on that step's
    description, and moves the cursor from j to j + 1. The steps are taken
    in list order, none skipped, whether interactions return or raise an
    Exception. *)
Theorem coder_calls_in_order envs state tp j task n :
  state !! "coder_state" = None →
  state !! "task_plan" = Some (VTaskPlan tp) →
  (∀ i, raises_only_Exception (envs i)) →
  implementation_steps tp !! j = Some task →
  (j < n)%nat →
  ∃ tail,
    coder_calls envs n 0 state !! j =
      Some (Returned (advanced (mk_CoderState tp j)),
            [EvReadFile (filepath task);
             EvReactAgent (coder_system_prompt ())
               (coder_user_prompt task (existing_content_for (envs j) task))]
            ++ tail).
Proof.
  intros Hcs Htp Hexc Htask Hj.
  destruct (coder_calls_from envs tp Hexc n 0 state 0 j task) as (r & tail & Hr & ->);
    [by apply get_coder_state_fresh | exact Htask | exact Hj |].
  exists tail. exact Hr.
Qed.

Lemma coder_calls_in_order_witness :
  ∃ tail,
    coder_calls (λ _, env_failing) 2 0 {[ "task_plan" := VTaskPlan two_tasks ]} !! 1%nat =
      Some (Returned (advanced (mk_CoderState two_tasks 1)),
            [EvReadFile "app.js";
             EvReactAgent (coder_system_prompt ())
               (coder_user_prompt (mk_ImplementationTask "app.js" "Wire the button")
                  (existing_content_for env_failing
                     (mk_ImplementationTask "app.js" "Wire the button")))]
            ++ tail).
Proof.
  apply (coder_calls_in_order (λ _, env_failing)
           {[ "task_plan" := VTaskPlan two_tasks ]} two_tasks 1
           (mk_ImplementationTask "app.js" "Wire the button") 2).
  - vm_compute; reflexivity.
  - vm_compute; reflexivity.
  - intros _ sys usr e [= <-]. reflexivity.
  - reflexivity.
  - lia.
Defined.

(** ** The graph, further *)

Lemma next_target_total n s : ∃ t, next_target n s = Some t.
Proof.
  destruct n; [by eexists | by eexists |]. rewrite next_target_coder. by eexists.
Qed.

Lemma run_from_aborted m envs :
  ∀ limit i n s e,
    (run_from m envs limit i n s).2 = Aborted e →
    ∃ j st, (run_from m envs limit i n s).1 !! j = Some st ∧
            (run_from m envs limit i n s).1 !! S j = None ∧
            step_node st = (Nat.iter j (λ n, match n with planner => architect | _ => coder end) n) ∧
            step_out st = Raised e.
Proof.
  induction limit as [|limit IH]; intros i n s e; [discriminate|].
  cbn [run_from].
  destruct (node_fn n (envs i) s) as [[u|e'] evs] eqn:Hfn.
  - destruct (next_target_total n (apply_update m s u)) as [t Ht]. rewrite Ht.
    destruct t as [n'|]; [|by destruct limit].
    specialize (IH (S i) n' (apply_update m s u) e).
    destruct (run_from m envs limit (S i) n' (apply_update m s u)) as [tr fin].
    cbn [fst snd] in *. intros Hfin.
    destruct (IH Hfin) as (j & st & Hj & HSj & Hnode & Hout).
    exists (S j), st. split; [exact Hj|]. split; [exact HSj|]. split; [|exact Hout].
    rewrite Hnode. rewrite Nat.iter_succ_r. f_equal.
    destruct n.
    + cbn [next_target] in Ht. by injection Ht as <-.
    + cbn [next_target] in Ht. by injection Ht as <-.
    + rewrite next_target_coder in Ht. destruct (is_DONE _); [discriminate|].
      by injection Ht as <-.
  - cbn [fst snd]. intros [= <-]. exists 0%nat, (mk_step n s (Raised e') evs None).
    repeat split.
Qed.

(** X15: the conditional edge after the coder always resolves (its key is
    END or coder, both in the path map), so every node has a next target;
    and a run is aborted only by an exception that its last executed node
    raised. *)
Theorem run_aborts_only_on_raise m envs limit input e :
  (invoke m envs limit input).2 = Aborted e →
  (∀ n s, is_Some (next_target n s)) ∧
  ∃ j st, (invoke m envs limit input).1 !! j = Some st ∧
          (invoke m envs limit input).1 !! S j = None ∧
          step_node st = expected_node j ∧
          step_out st = Raised e ∧
          (node_fn (step_node st) (envs j) (step_in st)).1 = Raised e.
Proof.
  intros Hfin. split.
  - intros n s. destruct (next_target_total n s) as [t ->]. by eexists.
  - unfold invoke, entry_point in *.
    destruct (run_from_aborted m envs limit 0 planner input e Hfin)
      as (j & st & Hj & HSj & _ & Hout).
    exists j, st. split; [exact Hj|]. split; [exact HSj|].
    split; [apply (run_from_nodes m envs limit 0 input j st Hj)|].
    split; [exact Hout|].
    destruct (run_from_facts m envs limit 0 planner input j st Hj) as [Hfn _].
    cbn [Nat.add] in Hfn. rewrite <- Hfn. exact Hout.
Qed.

Lemma run_aborts_only_on_raise_witness :
  ∃ j st, (invoke Replace (λ _, env_interrupted) 100 example_input).1 !! j = Some st ∧
          (invoke Replace (λ _, env_interrupted) 100 example_input).1 !! S j = None ∧
          step_node st = expected_node j ∧
          step_out st = Raised (mk_exn KeyboardInterrupt "") ∧
          (node_fn (step_node st) ((λ _, env_interrupted) j) (step_in st)).1
            = Raised (mk_exn KeyboardInterrupt "").
Proof.
  apply (run_aborts_only_on_raise Replace (λ _, env_interrupted) 100 example_input).
  vm_compute; reflexivity.
Defined.

Lemma apply_update_lookup_Some m (s u : gmap string value) k v :
  u !! k = Some v → apply_update m s u !! k = Some v.
Proof. intros H. destruct m; cbn; [done | by apply lookup_union_Some_l]. Qed.

Lemma apply_update_lookup_None m (s u : gmap string value) k :
  u !! k = None → m = Replace ∨ s !! k = None → apply_update m s u !! k = None.
Proof.
  intros Hu [-> | Hs]; cbn; [done|]. destruct m; cbn; [done|].
  by apply lookup_union_None.
Qed.

Lemma run_from_coder m envs tp :
  (∀ i, raises_only_Exception (envs i)) →
  ∀ limit i s k,
    get_coder_state s = mret (mk_CoderState tp k) →
    (k ≤ length (implementation_steps tp))%nat →
    m = Replace ∨ s !! "status" = None →
    Forall (λ st, step_node st = coder) (run_from m envs limit i coder s).1 ∧
    ((S (length (implementation_steps tp) - k) < limit)%nat →
     length (run_from m envs limit i coder s).1
       = S (length (implementation_steps tp) - k) ∧
     ∃ s', (run_from m envs limit i coder s).2 = Finished s' ∧
           is_DONE (s' !! "status") = true ∧
           cursor_of s' = Some (length (implementation_steps tp))) ∧
    ((limit ≤ S (length (implementation_steps tp) - k))%nat →
     length (run_from m envs limit i coder s).1 = limit ∧
     ∃ s', (run_from m envs limit i coder s).2 = RecursionLimit s').
Proof.
  intros Hexc. set (N := length (implementation_steps tp)).
  induction limit as [|limit IH]; intros i s k Hget Hk Hst.
  - cbn [run_from fst snd]. split; [constructor|]. split; [lia|]. eauto.
  - cbn [run_from]. cbn [node_fn]. destruct (decide (k = N)) as [->|Hne].
    + rewrite (coder_agent_terminal (envs i) s _ Hget) by (cbn; fold N; lia).
      rewrite next_target_coder.
      assert (Hdone : is_DONE (apply_update m s
                (reported_DONE (mk_CoderState tp N)) !! "status") = true).
      { by rewrite (apply_update_lookup_Some m s _ "status" (VStr "DONE")). }
      rewrite Hdone. cbn [fst snd length].
      split; [by repeat constructor|]. split.
      * intros Hlt. destruct limit as [|limit]; [lia|].
        split; [f_equal; lia|]. eexists. split; [reflexivity|].
        split; [exact Hdone|]. unfold cursor_of.
        by rewrite (apply_update_lookup_Some m s _ "coder_state"
                      (VCoderState (mk_CoderState tp N))).
      * intros Hle. destruct limit as [|limit]; [|lia]. eauto.
    + destruct (coder_agent (envs i) s) as [res evs] eqn:Hcall.
      assert (Hres : res = Returned (advanced (mk_CoderState tp k))).
      { pose proof (coder_agent_returns_advanced (envs i) s (mk_CoderState tp k)
                      Hget) as H.
        rewrite Hcall in H. apply H; [cbn; fold N; lia | apply Hexc]. }
      subst res. rewrite next_target_coder.
      assert (Hnot : apply_update m s (advanced (mk_CoderState tp k)) !! "status" = None).
      { by apply apply_update_lookup_None. }
      rewrite Hnot. cbn [is_DONE].
      specialize (IH (S i) (apply_update m s (advanced (mk_CoderState tp k)))
                    (k + 1)%nat).
      destruct (run_from m envs limit (S i) coder _) as [tr fin].
      cbn [fst snd length] in *.
      destruct IH as (Hall & Hfin & Hlim).
      * by apply get_coder_state_apply_update.
      * lia.
      * by right.
      * split; [by constructor|]. split.
        -- intros Hlt. destruct Hfin as [Hlen Hend]; [lia|].
           split; [lia | exact Hend].
        -- intros Hle. destruct Hlim as [Hlen Hend]; [lia|].
           split; [lia | exact Hend].
Qed.

(** X16: when the planner and the architect return, the TaskPlan having N
    implementation steps, and the coder interactions return or raise
    Exceptions, the run needs N + 3 node executions (planner, architect, N
    coder steps and the terminal coder call). Under a ceiling above N + 3 it
    executes exactly these and finishes on a state with status DONE and the
    cursor at N; under a ceiling of N + 3 or less it executes as many nodes
    as the ceiling allows (all N + 3 at a ceiling of N + 3) and is stopped at
    the recursion limit. When the state is updated by key, the input must
    not hold [coder_state] or [status] already. *)
Theorem invoke_finishes m envs limit input p tp :
  (planner_agent (envs 0%nat) input).1 = Returned {[ "plan" := VPlan p ]} →
  (architect_agent (envs 1%nat) (apply_update m input {[ "plan" := VPlan p ]})).1
    = Returned {[ "task_plan" := VTaskPlan tp ]} →
  (∀ i, raises_only_Exception (envs i)) →
  m = Replace ∨ (input !! "coder_state" = None ∧ input !! "status" = None) →
  ((length (implementation_steps tp) + 3 < limit)%nat →
   length (invoke m envs limit input).1 = (length (implementation_steps tp) + 3)%nat ∧
   ∃ s, (invoke m envs limit input).2 = Finished s ∧
        is_DONE (s !! "status") = true ∧
        cursor_of s = Some (length (implementation_steps tp))) ∧
  ((limit ≤ length (implementation_steps tp) + 3)%nat →
   length (invoke m envs limit input).1 = limit ∧
   ∃ s, (invoke m envs limit input).2 = RecursionLimit s).
Proof.
  intros Hplanner Harchitect Hexc Hinput.
  unfold invoke, entry_point.
  destruct limit as [|limit].
  { cbn [run_from fst snd length]. split; [lia|]. eauto. }
  cbn [run_from node_fn next_target].
  destruct (planner_agent (envs 0%nat) input) as [res0 evs0]. cbn [fst] in Hplanner.
  subst res0.
  destruct limit as [|limit].
  { cbn [run_from fst snd length]. split; [lia|]. eauto. }
  cbn [run_from node_fn next_target].
  destruct (architect_agent (envs 1%nat) _) as [res1 evs1]. cbn [fst] in Harchitect.
  subst res1.
  set (s2 := apply_update m (apply_update m input {[ "plan" := VPlan p ]})
               {[ "task_plan" := VTaskPlan tp ]}).
  destruct (run_from_coder m envs tp Hexc limit 2 s2 0) as (_ & Hfin & Hlim).
  - apply get_coder_state_fresh.
    + apply apply_update_lookup_None; [done|].
      destruct Hinput as [-> | [Hcs _]]; [by left | right].
      by apply apply_update_lookup_None; [|right].
    + by apply apply_update_lookup_Some.
  - lia.
  - destruct Hinput as [-> | [_ Hst]]; [by left | right].
    apply apply_update_lookup_None; [done | right].
    by apply apply_update_lookup_None; [|right].
  - destruct (run_from m envs limit 2 coder s2) as [tr fin]. cbn [fst snd length] in *.
    split.
    + intros Hlt. destruct Hfin as [Hlen Hend]; [lia|]. split; [lia | exact Hend].
    + intros Hle. destruct Hlim as [Hlen Hend]; [lia|]. split; [lia | exact Hend].
Qed.

Lemma invoke_finishes_witness :
  length (invoke Update (λ _, env_answering other_Plan two_tasks) 100 example_input).1 = 5 ∧
  ∃ s, (invoke Update (λ _, env_answering other_Plan two_tasks) 100 example_input).2
         = Finished s ∧
       is_DONE (s !! "status") = true ∧ cursor_of s = Some 2.
Proof.
  destruct (invoke_finishes Update (λ _, env_answering other_Plan two_tasks) 100
              example_input other_Plan
              (set_plan two_tasks other_Plan)) as [H _].
  - vm_compute; reflexivity.
  - vm_compute; reflexivity.
  - intros _ sys usr e [=].
  - right. split; vm_compute; reflexivity.
  - apply H. cbn. lia.
Defined.

Lemma node_fn_reads_agree n env s s' :
  reads_agree n s s' → node_fn n env s = node_fn n env s'.
Proof.
  intros [Hn _]. destruct n; cbn [node_fn].
  - destruct Hn as [H _]. unfold planner_agent, getitem. by rewrite H.
  - destruct Hn as [H _]. unfold architect_agent, getitem. by rewrite H.
  - by apply coder_agent_get_coder_state.
Qed.

Lemma update_status (s' u : gmap string value) :
  s' !! "status" = None → (u ∪ s') !! "status" = u !! "status".
Proof.
  intros Hs. destruct (u !! "status") as [v|] eqn:Hu.
  - by apply lookup_union_Some_l.
  - by apply lookup_union_None.
Qed.

Lemma next_target_status n (s s' : gmap string value) :
  s !! "status" = s' !! "status" → next_target n s = next_target n s'.
Proof.
  intros H. destruct n; [reflexivity..|]. rewrite !next_target_coder. by rewrite H.
Qed.

Lemma reads_agree_next n n' env s s' u :
  reads_agree n s s' →
  (node_fn n env s).1 = Returned u →
  next_target n u = Some (Goto n') →
  reads_agree n' u (u ∪ s').
Proof.
  intros [Hn Hst] Hu Hnext. destruct n.
  - cbn [node_fn] in Hu. destruct (planner_agent_returns env s u Hu) as [p ->].
    cbn [next_target] in Hnext. injection Hnext as <-. destruct Hn as [_ Hcs].
    split; [split|].
    + symmetry. by apply lookup_union_Some_l.
    + by apply lookup_union_None.
    + by rewrite update_status.
  - cbn [node_fn] in Hu.
    destruct (architect_agent_returns env s u Hu) as (p & t & _ & ->).
    cbn [next_target] in Hnext. injection Hnext as <-. destruct Hn as [_ Hcs].
    split.
    + cbn. rewrite (get_coder_state_fresh _ (set_plan t p)) by done.
      symmetry. apply get_coder_state_fresh.
      * by apply lookup_union_None.
      * by apply lookup_union_Some_l.
    + by rewrite update_status.
  - cbn [node_fn] in Hu. rewrite next_target_coder in Hnext.
    destruct (coder_agent_returns env s u Hu) as (cs & _ & ->).
    case_decide.
    + rewrite reported_DONE_status in Hnext. discriminate.
    + rewrite advanced_status in Hnext. injection Hnext as <-. split.
      * cbn. rewrite (get_coder_state_present (advanced cs) _ eq_refl).
        symmetry. apply (get_coder_state_apply_update Update). reflexivity.
      * by rewrite update_status.
Qed.

Lemma run_from_fold_mode envs :
  ∀ limit i n s s',
    reads_agree n s s' →
    step_view <$> (run_from Replace envs limit i n s).1
      = step_view <$> (run_from Update envs limit i n s').1 ∧
    same_end (run_from Replace envs limit i n s).2
             (run_from Update envs limit i n s').2.
Proof.
  induction limit as [|limit IH]; intros i n s s' Hagree; [by split|].
  cbn [run_from]. rewrite <- (node_fn_reads_agree n (envs i) s s' Hagree).
  destruct (node_fn n (envs i) s) as [[u|e] evs] eqn:Hfn; [|by split].
  cbn [apply_update].
  assert (Hnext : next_target n (u ∪ s') = next_target n u).
  { apply next_target_status. apply update_status. apply Hagree. }
  rewrite Hnext. destruct (next_target n u) as [[n'|]|] eqn:Ht.
  - assert (Hagree' : reads_agree n' u (u ∪ s')).
    { apply (reads_agree_next n n' (envs i) s s' u Hagree); [by rewrite Hfn | exact Ht]. }
    specialize (IH (S i) n' u (u ∪ s') Hagree').
    destruct (run_from Replace envs limit (S i) n' u) as [tr fin].
    destruct (run_from Update envs limit (S i) n' (u ∪ s')) as [tr' fin'].
    cbn [fst snd] in *. destruct IH as [Htr Hfin]. split; [|exact Hfin].
    rewrite !fmap_cons. by rewrite Htr.
  - split; [reflexivity|]. destruct limit as [|limit]; [exact I|].
    cbn [snd same_end].
    destruct n; [discriminate Ht..|].
    assert (Hu : (coder_agent (envs i) s).1 = Returned u) by (cbn [node_fn] in Hfn; by rewrite Hfn).
    destruct (coder_agent_returns (envs i) s u Hu) as (cs & _ & Hueq).
    split.
    + unfold coder_state_of.
      assert (Hcs : ∃ c, u !! "coder_state" = Some (VCoderState c)).
      { subst u. case_decide; by eexists. }
      destruct Hcs as [c Hc]. by rewrite Hc, (lookup_union_Some_l u s' _ _ Hc).
    + rewrite update_status; [reflexivity | apply Hagree].
  - destruct (next_target_total n u) as [t Ht']. congruence.
Qed.

(** X17: the pipeline does not depend on how the framework folds a returned
    mapping into the state. On an input without [coder_state] and [status],
    a run that replaces the state and a run that updates it by key execute
    the same nodes, with the same outcomes, events and edges, step by step,
    and end alike. *)
Theorem fold_mode_irrelevant envs limit input :
  input !! "coder_state" = None →
  input !! "status" = None →
  step_view <$> (invoke Replace envs limit input).1
    = step_view <$> (invoke Update envs limit input).1 ∧
  same_end (invoke Replace envs limit input).2 (invoke Update envs limit input).2.
Proof.
  intros Hcs Hst. unfold invoke, entry_point.
  apply run_from_fold_mode. by repeat split.
Qed.

Lemma fold_mode_irrelevant_witness :
  step_view <$> (invoke Replace (λ _, env_failing) 100 example_input).1
    = step_view <$> (invoke Update (λ _, env_failing) 100 example_input).1.
Proof.
  apply (fold_mode_irrelevant (λ _, env_failing) 100 example_input);
    vm_compute; reflexivity.
Defined.
